(** * Text-to-SQL service: connection manager, schema inspector, query
      executor and query generator

    A shallow embedding of [Data_Base_Manager.py], [Query_Generator.py],
    the [/get_schema] handler of [api.py] and the [DatabaseManager] of
    [fast_api.py], together with the properties of these programs.

    The database drivers (sqlite3, psycopg2, mysql.connector), the
    generative model and the web framework are external: they appear as
    interfaces ([Driver], [Platform]) whose operations thread an abstract
    world [W].  Python exceptions are values of [exn]; a computation that
    may raise returns an [outcome].

    The modules [Data_Base_Manager], [fast_api], [Query_Generator] and
    [api] follow the sources.  [sqlite3_model] is an instance of [Driver]
    over a catalog of tables; [postgres_spec] and [prompt_spec] hold the
    texts the programs are specified to produce; [examples] holds sample
    databases and requests. *)

From Stdlib Require Import ZArith Ascii String Sorted.
From stdpp Require Import gmap strings list fin_maps pretty.

Local Open Scope Z_scope.

(** ** Python values *)

(** The values that flow through result rows, request fields and
    response dictionaries. *)
Inductive pyval : Type :=
| VNone
| VBool (b : bool)
| VInt (z : Z)
| VStr (s : string).

(** A result row (a Python tuple) and a dictionary with string keys. *)
Abbreviation row := (list pyval).
Abbreviation dict := (gmap string pyval).

(** The line feed, written [\n] in the source. *)
Definition nl : string := String (ascii_of_nat 10) EmptyString.

(** [str(v)], which is also what an f-string interpolates. *)
Definition py_str (v : pyval) : string :=
  match v with
  | VNone => "None"
  | VBool true => "True"
  | VBool false => "False"
  | VInt z => pretty z
  | VStr s => s
  end.

(** Truth value of [v] in an [if]. *)
Definition py_truthy (v : pyval) : bool :=
  match v with
  | VNone => false
  | VBool b => b
  | VInt z => negb (z =? 0)
  | VStr s => negb (String.eqb s "")
  end.

(** [a == b]; a bool compares as the integer 0 or 1. *)
Definition py_eq (a b : pyval) : bool :=
  match a, b with
  | VNone, VNone => true
  | VStr s, VStr t => String.eqb s t
  | VInt x, VInt y => x =? y
  | VBool x, VBool y => Bool.eqb x y
  | VBool x, VInt y | VInt y, VBool x => (if x then 1 else 0) =? y
  | _, _ => false
  end.

(** An optional request field: [None] or a string. *)
Definition opt_val (o : option string) : pyval :=
  match o with
  | Some s => VStr s
  | None => VNone
  end.

(** [sep.join(parts)]. *)
Definition str_join (sep : string) (parts : list string) : string :=
  String.concat sep parts.

(** A string literal that spans several source lines. *)
Definition lines (ls : list string) : string := str_join nl ls.

(** ** Exceptions and outcomes *)

(** Every class below derives from [Exception].  [DriverError] stands for
    whatever a database driver raises, with its message. *)
Inductive exn : Type :=
| KeyError (key : string)
| IndexError (msg : string)
| ValueError (msg : string)
| TypeError (msg : string)
| AttributeError (msg : string)
| ConnectionError (msg : string)
| Exception_ (msg : string)
| DriverError (msg : string)
| HTTPException (status_code : Z) (detail : pyval).

Inductive outcome (A : Type) : Type :=
| Returned (a : A)
| Raised (e : exn).

Arguments Returned {A} a.
Arguments Raised {A} e.

(** What the interpreter and the web framework define and the sources
    rely on: [repr] of a string (the text of a [KeyError]) and [str] of
    the framework's [HTTPException]. *)
Class Platform : Type := {
  py_repr : string -> string;
  http_exception_str : Z -> pyval -> string
}.

(** [str(e)]. *)
Definition exn_str `{Platform} (e : exn) : string :=
  match e with
  | KeyError k => py_repr k
  | IndexError m | ValueError m | TypeError m | AttributeError m
  | ConnectionError m | Exception_ m | DriverError m => m
  | HTTPException c d => http_exception_str c d
  end.

(** [t[i]] on a tuple. *)
Definition py_index (t : row) (i : nat) : outcome pyval :=
  match t !! i with
  | Some v => Returned v
  | None => Raised (IndexError "tuple index out of range")
  end.

(** [d[k]] on a dictionary. *)
Definition dict_getitem {V} (k : string) (d : gmap string V) : outcome V :=
  match d !! k with
  | Some v => Returned v
  | None => Raised (KeyError k)
  end.

(** ** Computations over the external world *)

Definition M (W A : Type) : Type := W -> W * outcome A.

Definition ret {W A} (a : A) : M W A := fun w => (w, Returned a).
Definition raise {W A} (e : exn) : M W A := fun w => (w, Raised e).
Definition lift {W A} (o : outcome A) : M W A := fun w => (w, o).

Definition bind {W A B} (m : M W A) (k : A -> M W B) : M W B :=
  fun w =>
    match m w with
    | (w', Returned a) => k a w'
    | (w', Raised e) => (w', Raised e)
    end.

Notation "x <- m ;; k" := (bind m (fun x => k))
  (at level 100, m at next level, right associativity).
Notation "m ;;; k" := (bind m (fun _ => k))
  (at level 100, right associativity).

(** A [for] loop that carries an accumulator and stops at the first
    exception. *)
Fixpoint for_each {W A S} (body : S -> A -> M W S) (l : list A) (acc : S) : M W S :=
  match l with
  | [] => ret acc
  | x :: rest => acc' <- body acc x ;; for_each body rest acc'
  end.

(** A list comprehension whose element expression may raise. *)
Fixpoint map_m {W A B} (f : A -> M W B) (l : list A) : M W (list B) :=
  match l with
  | [] => ret []
  | x :: rest => y <- f x ;; ys <- map_m f rest ;; ret (y :: ys)
  end.

(** [try: m  except Exception as e: raise h(e)]. *)
Definition try_except {W A} (m : M W A) (h : exn -> exn) : M W A :=
  fun w =>
    match m w with
    | (w', Raised e) => (w', Raised (h e))
    | r => r
    end.

(** ** The database drivers *)

(** The DB-API operations the sources call.  [Conn] and [Cur] are the
    connection and cursor objects; [cursor_description] is the list of
    7-item column descriptions, or [None]. *)
Class Driver (W Conn Cur : Type) : Type := {
  sqlite3_connect : string -> M W Conn;
  psycopg2_connect :
    forall (host : pyval) (database : string) (user password port : pyval), M W Conn;
  mysql_connect :
    forall (host : pyval) (database : string) (user password port : pyval), M W Conn;
  conn_commit : Conn -> M W unit;
  conn_cursor : Conn -> M W Cur;
  cursor_execute : Cur -> string -> M W unit;
  cursor_description : Cur -> W -> option (list row);
  cursor_fetchall : Cur -> M W (list row)
}.

(** The request model [DBConfig]; [db_data] is its [dict()]. *)
Record DBConfig : Type := {
  db_type : string;
  db_host : option string;
  db_port : option string;
  db_name : string;
  db_user : option string;
  db_password : option string
}.

(** ** [Data_Base_Manager.py] *)

Module Data_Base_Manager.

(** The [DatabaseManager] object and the world it runs in.  A stored
    connection is [None] when [_create_connection] fell through its
    branches.  [opened] is a history variable, used in statements only:
    the keys under which a driver opened a live connection, oldest
    first. *)
Record manager (W Conn : Type) : Type := {
  connections : gmap string (option Conn);
  opened : list string;
  world : W
}.

Arguments connections {W Conn} _.
Arguments opened {W Conn} _.
Arguments world {W Conn} _.

Definition set_world {W Conn} (w : W) (s : manager W Conn) : manager W Conn :=
  {| connections := connections s; opened := opened s; world := w |}.

(** [self.connections[key] = c], with the history variable kept. *)
Definition store {W Conn} (key : string) (c : option Conn) (w : W)
    (s : manager W Conn) : manager W Conn :=
  {| connections := <[key := c]> (connections s);
     opened := match c with
               | Some _ => opened s ++ [key]
               | None => opened s
               end;
     world := w |}.

(** [DatabaseManager()]. *)
Definition init {W Conn} (w : W) : manager W Conn :=
  {| connections := ∅; opened := []; world := w |}.

(** The manager [s'] holds every cache entry of [s], with the same
    connection. *)
Definition keeps {W Conn} (s s' : manager W Conn) : Prop :=
  forall k c, connections s !! k = Some c -> connections s' !! k = Some c.


(** The text of a failed attribute access on [None]. *)
Definition none_has_no (attr : string) : exn :=
  AttributeError ("'NoneType' object has no attribute '" +:+ attr +:+ "'").

(** The text of a failed tuple unpacking into [expected] names. *)
Definition unpack_error (expected got : nat) : exn :=
  if (got <? expected)%nat then
    ValueError ("not enough values to unpack (expected " +:+ pretty expected
                  +:+ ", got " +:+ pretty got +:+ ")")
  else
    ValueError ("too many values to unpack (expected " +:+ pretty expected +:+ ")").

(** The result of [pd.DataFrame(rows, columns=columns)]. *)
Record DataFrame : Type := {
  df_rows : list row;
  df_columns : list pyval
}.

Section WithDriver.
Context {P : Platform} {W Conn Cur : Type} {D : Driver W Conn Cur}.

(** [conn_key] of [get_connection]. *)
Definition conn_key (db_data : DBConfig) : string :=
  db_type db_data +:+ "_" +:+ py_str (VStr (db_name db_data))
    +:+ "_" +:+ py_str (opt_val (db_host db_data)).

Definition _create_connection (db_data : DBConfig) : M W (option Conn) :=
  try_except
    (if String.eqb (db_type db_data) "SQLite" then
       c <- sqlite3_connect (db_name db_data) ;; ret (Some c)
     else if String.eqb (db_type db_data) "PostgreSQL" then
       c <- psycopg2_connect (opt_val (db_host db_data)) (db_name db_data)
              (opt_val (db_user db_data)) (opt_val (db_password db_data))
              (opt_val (db_port db_data)) ;;
       ret (Some c)
     else if String.eqb (db_type db_data) "MySQL" then
       c <- mysql_connect (opt_val (db_host db_data)) (db_name db_data)
              (opt_val (db_user db_data)) (opt_val (db_password db_data))
              (opt_val (db_port db_data)) ;;
       ret (Some c)
     else ret None)
    (fun e => ConnectionError ("Failed to connect to database: " +:+ exn_str e)).

(** The [except] clause of [get_connection]. *)
Definition get_connection_except (e : exn) : exn :=
  ConnectionError ("Database connection failed: " +:+ exn_str e).

(** The [finally] clause of [get_connection]: it runs with the outcome
    [pending] of what came before, and an exception of its own replaces
    that outcome. *)
Definition get_connection_finally {A} (db_data : DBConfig) (pending : outcome A)
    (s : manager W Conn) : manager W Conn * outcome A :=
  if String.eqb (db_type db_data) "SQLite" then
    match dict_getitem (conn_key db_data) (connections s) with
    | Raised e => (s, Raised e)
    | Returned None => (s, Raised (none_has_no "commit"))
    | Returned (Some c) =>
        match conn_commit c (world s) with
        | (w', Raised e) => (set_world w' s, Raised e)
        | (w', Returned _) => (set_world w' s, pending)
        end
    end
  else (s, pending).

(** The [try] block of [get_connection] up to the [yield]; the value
    returned is the one yielded. *)
Definition get_connection_try (db_data : DBConfig) (s : manager W Conn)
    : manager W Conn * outcome (option Conn) :=
  let created :=
    match connections s !! conn_key db_data with
    | Some _ => (s, Returned tt)
    | None =>
        match _create_connection db_data (world s) with
        | (w', Raised e) => (set_world w' s, Raised e)
        | (w', Returned c) => (store (conn_key db_data) c w' s, Returned tt)
        end
    end in
  match created with
  | (s', Raised e) => (s', Raised e)
  | (s', Returned _) => (s', dict_getitem (conn_key db_data) (connections s'))
  end.

(** Entering [with self.get_connection(db_data) as conn]: the generator
    runs to its [yield]; when the [try] block raises first, the [except]
    and [finally] clauses run and the [with] body does not. *)
Definition get_connection_enter (db_data : DBConfig) (s : manager W Conn)
    : manager W Conn * outcome (option Conn) :=
  match get_connection_try db_data s with
  | (s', Returned c) => (s', Returned c)
  | (s', Raised e) =>
      get_connection_finally db_data (Raised (get_connection_except e)) s'
  end.

(** Leaving the [with] block with the outcome [r] of its body: an
    exception is thrown into the generator at the [yield]. *)
Definition get_connection_exit {A} (db_data : DBConfig) (r : outcome A)
    (s : manager W Conn) : manager W Conn * outcome A :=
  match r with
  | Returned a => get_connection_finally db_data (Returned a) s
  | Raised e => get_connection_finally db_data (Raised (get_connection_except e)) s
  end.

(** [with self.get_connection(db_data) as conn: body(conn)].  The body
    works on the yielded connection and the world; it has no access to
    the manager. *)
Definition get_connection {A} (db_data : DBConfig)
    (body : option Conn -> M W A) (s : manager W Conn) : manager W Conn * outcome A :=
  match get_connection_enter db_data s with
  | (s', Raised e) => (s', Raised e)
  | (s', Returned conn) =>
      match body conn (world s') with
      | (w', r) => get_connection_exit db_data r (set_world w' s')
      end
  end.

(** [conn.cursor()] on the yielded value. *)
Definition cursor_of (conn : option Conn) : M W Cur :=
  match conn with
  | Some c => conn_cursor c
  | None => raise (none_has_no "cursor")
  end.

(** *** Schema inspection *)

Definition sqlite_tables_sql : string :=
  "SELECT name FROM sqlite_master WHERE type='table' AND name NOT LIKE 'sqlite_%';".

(** [f"\n  Table: {table_name}\n" + "\n".join(column_details)]. *)
Definition table_schema (table_name : pyval) (column_details : list string) : string :=
  nl +:+ "  Table: " +:+ py_str table_name +:+ nl +:+ str_join nl column_details.

(** [f"    - {col[1]} ({col[2]})"]. *)
Definition sqlite_column (col : row) : M W string :=
  c1 <- lift (py_index col 1) ;;
  c2 <- lift (py_index col 2) ;;
  ret ("    - " +:+ py_str c1 +:+ " (" +:+ py_str c2 +:+ ")").

(** One iteration of the [for table in tables] loop of
    [_get_sqlite_schema]. *)
Definition sqlite_table (cursor : Cur) (schema_parts : list string) (table : row)
    : M W (list string) :=
  table_name <- lift (py_index table 0) ;;
  cursor_execute cursor ("PRAGMA table_info('" +:+ py_str table_name +:+ "');") ;;;
  columns <- cursor_fetchall cursor ;;
  column_details <- map_m sqlite_column columns ;;
  ret (schema_parts ++ [table_schema table_name column_details]).

Definition _get_sqlite_schema (cursor : Cur) : M W string :=
  cursor_execute cursor sqlite_tables_sql ;;;
  tables <- cursor_fetchall cursor ;;
  schema_parts <- for_each (sqlite_table cursor) tables [] ;;
  ret (str_join nl schema_parts).

Definition postgres_columns_sql : string :=
  lines [ "";
          "            SELECT ";
          "                t.table_name,";
          "                c.column_name,";
          "                c.data_type,";
          "                c.column_default,";
          "                c.is_nullable";
          "            FROM ";
          "                information_schema.tables t";
          "                JOIN information_schema.columns c ON t.table_name = c.table_name";
          "            WHERE ";
          "                t.table_schema = 'public'";
          "                AND t.table_type = 'BASE TABLE'";
          "            ORDER BY ";
          "                t.table_name,";
          "                c.ordinal_position;";
          "        " ].

(** [x is not None]. *)
Definition is_not_none (v : pyval) : bool :=
  match v with
  | VNone => false
  | _ => true
  end.

(** The loop variables of [_get_postgres_schema]:
    [schema_parts], [current_table], [column_details]. *)
Definition postgres_vars : Type := list string * pyval * list string.

(** One iteration of the [for row in cursor.fetchall()] loop. *)
Definition postgres_row (vars : postgres_vars) (r : row) : M W postgres_vars :=
  let '(schema_parts, current_table, column_details) := vars in
  match r with
  | [table_name; column_name; data_type; default; nullable] =>
      let '(schema_parts, current_table, column_details) :=
        if negb (py_eq current_table table_name) then
          ((if is_not_none current_table
            then schema_parts ++ [table_schema current_table column_details]
            else schema_parts),
           table_name, [])
        else (schema_parts, current_table, column_details) in
      let nullable_str := if py_eq nullable (VStr "YES") then "NULL" else "NOT NULL" in
      let default_str := if py_truthy default then " DEFAULT " +:+ py_str default else "" in
      ret (schema_parts, current_table,
           column_details ++
             [ "    - " +:+ py_str column_name +:+ " (" +:+ py_str data_type +:+ " "
                 +:+ nullable_str +:+ default_str +:+ ")" ])
  | _ => raise (unpack_error 5 (length r))
  end.

Definition _get_postgres_schema (cursor : Cur) : M W string :=
  cursor_execute cursor postgres_columns_sql ;;;
  rows <- cursor_fetchall cursor ;;
  vars <- for_each postgres_row rows ([], VNone, []) ;;
  let '(schema_parts, current_table, column_details) := vars in
  let schema_parts :=
    if is_not_none current_table
    then schema_parts ++ [table_schema current_table column_details]
    else schema_parts in
  ret (str_join nl schema_parts).

Definition _get_mysql_schema (cursor : Cur) : M W string :=
  cursor_execute cursor "SHOW TABLES;" ;;;
  tables <- cursor_fetchall cursor ;;
  schema_parts <-
    for_each (fun schema_parts table =>
      table_name <- lift (py_index table 0) ;;
      cursor_execute cursor ("DESCRIBE `" +:+ py_str table_name +:+ "`;") ;;;
      columns <- cursor_fetchall cursor ;;
      column_details <-
        for_each (fun column_details col =>
          match col with
          | [field; type_; null; key; default; extra] =>
              let nullable := if py_eq null (VStr "YES") then "NULL" else "NOT NULL" in
              let default_str :=
                if py_truthy default then " DEFAULT " +:+ py_str default else "" in
              let key_str := if py_truthy key then " " +:+ py_str key else "" in
              let extra_str := if py_truthy extra then " " +:+ py_str extra else "" in
              ret (column_details ++
                     [ "    - " +:+ py_str field +:+ " (" +:+ py_str type_ +:+ " "
                         +:+ nullable +:+ default_str +:+ key_str +:+ extra_str +:+ ")" ])
          | _ => raise (unpack_error 6 (length col))
          end) columns [] ;;
      ret (schema_parts ++ [table_schema table_name column_details]))
      tables [] ;;
  ret (str_join nl schema_parts).

(** The body of the [with] block of [get_schema]. *)
Definition get_schema_body (db_data : DBConfig) (conn : option Conn) : M W dict :=
  cursor <- cursor_of conn ;;
  schema <-
    (if String.eqb (db_type db_data) "SQLite" then _get_sqlite_schema cursor
     else if String.eqb (db_type db_data) "PostgreSQL" then _get_postgres_schema cursor
     else if String.eqb (db_type db_data) "MySQL" then _get_mysql_schema cursor
     else raise (ValueError ("Unsupported database type: " +:+ db_type db_data))) ;;
  ret (<["success" := VBool true]> (<["schema" := VStr schema]> ∅)).

Definition get_schema (db_data : DBConfig) (s : manager W Conn)
    : manager W Conn * outcome dict :=
  match get_connection db_data (get_schema_body db_data) s with
  | (s', Returned r) => (s', Returned r)
  | (s', Raised e) =>
      (s', Returned (<["success" := VBool false]>
                      (<["message" := VStr ("Failed to get schema: " +:+ exn_str e)]> ∅)))
  end.

(** *** Query execution *)

(** The body of the [with] block of [execute_query].  A cursor object
    defines neither [__bool__] nor [__len__], so [if cursor:] always takes
    its branch. *)
Definition execute_query_body (sql_query : string) (conn : option Conn)
    : M W (option DataFrame) :=
  cursor <- cursor_of conn ;;
  cursor_execute cursor sql_query ;;;
  description <- (fun w => (w, Returned (cursor_description cursor w))) ;;
  columns <-
    match description with
    | Some descs => map_m (fun desc => lift (py_index desc 0)) descs
    | None => raise (TypeError "'NoneType' object is not iterable")
    end ;;
  rows <- cursor_fetchall cursor ;;
  match rows with
  | [] => ret None
  | _ => ret (Some {| df_rows := rows; df_columns := columns |})
  end.

Definition execute_query (sql_query : string) (db_data : DBConfig)
    (s : manager W Conn) : manager W Conn * outcome (option DataFrame) :=
  match get_connection db_data (execute_query_body sql_query) s with
  | (s', Returned r) => (s', Returned r)
  | (s', Raised e) => (s', Raised (Exception_ ("Query execution failed: " +:+ exn_str e)))
  end.

(** *** Sequences of operations *)

(** One use of the manager: a [with get_connection] block with any body,
    [get_schema], or [execute_query]. *)
Inductive call : Type :=
| WithConnection (db_data : DBConfig) (body : option Conn -> M W unit)
| GetSchema (db_data : DBConfig)
| ExecuteQuery (sql_query : string) (db_data : DBConfig).

(** The manager after a call; what the call returned or raised is
    dropped. *)
Definition run_call (c : call) (s : manager W Conn) : manager W Conn :=
  match c with
  | WithConnection db_data body => fst (get_connection db_data body s)
  | GetSchema db_data => fst (get_schema db_data s)
  | ExecuteQuery sql_query db_data => fst (execute_query sql_query db_data s)
  end.

Definition run (calls : list call) (s : manager W Conn) : manager W Conn :=
  fold_left (fun s c => run_call c s) calls s.

End WithDriver.

End Data_Base_Manager.

(** ** The [DatabaseManager] of [fast_api.py] *)

Module fast_api.

Import Data_Base_Manager.

Section WithDriver.
Context {P : Platform} {W Conn Cur : Type} {D : Driver W Conn Cur}.

Definition conn_key (db_data : DBConfig) : string :=
  db_type db_data +:+ "_" +:+ py_str (VStr (db_name db_data))
    +:+ "_" +:+ py_str (opt_val (db_host db_data)).

Definition _create_connection (db_data : DBConfig) : M W (option Conn) :=
  try_except
    (if String.eqb (db_type db_data) "SQLite" then
       c <- sqlite3_connect (db_name db_data) ;; ret (Some c)
     else if String.eqb (db_type db_data) "PostgreSQL" then
       c <- psycopg2_connect (opt_val (db_host db_data)) (db_name db_data)
              (opt_val (db_user db_data)) (opt_val (db_password db_data))
              (opt_val (db_port db_data)) ;;
       ret (Some c)
     else if String.eqb (db_type db_data) "MySQL" then
       c <- mysql_connect (opt_val (db_host db_data)) (db_name db_data)
              (opt_val (db_user db_data)) (opt_val (db_password db_data))
              (opt_val (db_port db_data)) ;;
       ret (Some c)
     else ret None)
    (fun e => ConnectionError ("Failed to connect to database: " +:+ exn_str e)).

(** Entering the [with] block: the [try] block up to the [yield]; the
    [except] clause re-raises what it caught and the [finally] clause is
    [pass]. *)
Definition get_connection_enter (db_data : DBConfig) (s : manager W Conn)
    : manager W Conn * outcome (option Conn) :=
  let created :=
    match connections s !! conn_key db_data with
    | Some _ => (s, Returned tt)
    | None =>
        match _create_connection db_data (world s) with
        | (w', Raised e) => (set_world w' s, Raised e)
        | (w', Returned c) => (store (conn_key db_data) c w' s, Returned tt)
        end
    end in
  match created with
  | (s', Raised e) => (s', Raised e)
  | (s', Returned _) => (s', dict_getitem (conn_key db_data) (connections s'))
  end.

(** Leaving the [with] block with the outcome [r] of its body. *)
Definition get_connection_exit {A} (r : outcome A) (s : manager W Conn)
    : manager W Conn * outcome A :=
  (s, r).

Definition get_connection {A} (db_data : DBConfig)
    (body : option Conn -> M W A) (s : manager W Conn) : manager W Conn * outcome A :=
  match get_connection_enter db_data s with
  | (s', Raised e) => (s', Raised e)
  | (s', Returned conn) =>
      match body conn (world s') with
      | (w', r) => get_connection_exit r (set_world w' s')
      end
  end.

Definition _format_table_schema (table_name : pyval) (columns : list row)
    (db_type : string) : M W string :=
  columns_info <-
    (if String.eqb db_type "sqlite" then
       map_m (fun col =>
         c1 <- lift (py_index col 1) ;;
         c2 <- lift (py_index col 2) ;;
         ret ("    - " +:+ py_str c1 +:+ " (" +:+ py_str c2 +:+ ")")) columns
     else if String.eqb db_type "mysql" then
       map_m (fun col =>
         c0 <- lift (py_index col 0) ;;
         c1 <- lift (py_index col 1) ;;
         ret ("    - " +:+ py_str c0 +:+ " (" +:+ py_str c1 +:+ ")")) columns
     else
       map_m (fun col =>
         c1 <- lift (py_index col 1) ;;
         c2 <- lift (py_index col 2) ;;
         ret ("    - " +:+ py_str c1 +:+ " (" +:+ py_str c2 +:+ ")")) columns) ;;
  ret (nl +:+ "  Table: " +:+ py_str table_name +:+ nl +:+ str_join nl columns_info).

(** [table_columns[table_name].append(line)] on a dictionary kept in
    insertion order. *)
Fixpoint dict_append (table_name : pyval) (line : string)
    (table_columns : list (pyval * list string)) : list (pyval * list string) :=
  match table_columns with
  | [] => []
  | (k, v) :: rest =>
      if py_eq k table_name then (k, v ++ [line]) :: rest
      else (k, v) :: dict_append table_name line rest
  end.

Definition _format_postgres_schema (schema_data : list row) : M W (list string) :=
  table_columns <-
    for_each (fun table_columns r =>
      match r with
      | [table_name; column_name; data_type] =>
          let table_columns :=
            if existsb (fun kv => py_eq (fst kv) table_name) table_columns
            then table_columns
            else table_columns ++ [(table_name, [])] in
          ret (dict_append table_name
                 ("    - " +:+ py_str column_name +:+ " (" +:+ py_str data_type +:+ ")")
                 table_columns)
      | _ => raise (unpack_error 3 (length r))
      end) schema_data [] ;;
  ret (map (fun kv => nl +:+ "  Table: " +:+ py_str (fst kv) +:+ nl +:+ str_join nl (snd kv))
         table_columns).

Definition postgres_columns_sql : string :=
  lines [ "";
          "                    SELECT table_name, column_name, data_type";
          "                    FROM information_schema.columns";
          "                    WHERE table_schema = 'public'";
          "                    ORDER BY table_name, ordinal_position;";
          "                " ].

(** One iteration of the [for table in tables] loop of the SQLite branch
    of [_get_schema_details]. *)
Definition sqlite_table (cursor : Cur) (schema : list string) (table : row)
    : M W (list string) :=
  table_name <- lift (py_index table 0) ;;
  cursor_execute cursor ("PRAGMA table_info(" +:+ py_str table_name +:+ ");") ;;;
  columns <- cursor_fetchall cursor ;;
  part <- _format_table_schema table_name columns "sqlite" ;;
  ret (schema ++ [part]).

Definition _get_schema_details (cursor : Cur) (db_type : string) : M W string :=
  try_except
    (schema <-
       (if String.eqb db_type "SQLite" then
          cursor_execute cursor "SELECT name FROM sqlite_master WHERE type='table';" ;;;
          tables <- cursor_fetchall cursor ;;
          for_each (sqlite_table cursor) tables []
        else if String.eqb db_type "PostgreSQL" then
          cursor_execute cursor postgres_columns_sql ;;;
          schema_data <- cursor_fetchall cursor ;;
          parts <- _format_postgres_schema schema_data ;;
          ret ([] ++ parts)
        else if String.eqb db_type "MySQL" then
          cursor_execute cursor "SHOW TABLES;" ;;;
          tables <- cursor_fetchall cursor ;;
          for_each (fun schema table =>
            table_name <- lift (py_index table 0) ;;
            cursor_execute cursor ("SHOW COLUMNS FROM " +:+ py_str table_name +:+ ";") ;;;
            columns <- cursor_fetchall cursor ;;
            part <- _format_table_schema table_name columns "mysql" ;;
            ret (schema ++ [part])) tables []
        else ret []) ;;
     ret (str_join nl schema))
    (fun e => Exception_ ("Error fetching schema details: " +:+ exn_str e)).

Definition get_schema (db_data : DBConfig) (s : manager W Conn)
    : manager W Conn * outcome dict :=
  match get_connection db_data
          (fun conn =>
             cursor <- cursor_of conn ;;
             schema <- _get_schema_details cursor (db_type db_data) ;;
             ret (<["success" := VBool true]> (<["schema" := VStr schema]> ∅))) s with
  | (s', Returned r) => (s', Returned r)
  | (s', Raised e) =>
      (s', Returned (<["success" := VBool false]>
                      (<["message" := VStr ("Failed to get schema: " +:+ exn_str e)]> ∅)))
  end.

(** A sequence of [with get_connection] blocks: every method of this
    [DatabaseManager] reaches the manager through one. *)
Definition run (calls : list (DBConfig * (option Conn -> M W unit)))
    (s : manager W Conn) : manager W Conn :=
  fold_left (fun s c => fst (get_connection (fst c) (snd c) s)) calls s.

End WithDriver.

End fast_api.

(** ** [Query_Generator.py] *)

Module Query_Generator.

(** The [schema] argument of [generate_query]: a dictionary or any other
    value. *)
Inductive schema_arg : Type :=
| SchemaDict (d : dict)
| SchemaValue (v : pyval).

Definition _get_prompt_template (schema : pyval) : string :=
  lines [ "";
          "        You are an expert SQL assistant. You will help users write SQL queries that are efficient, secure and follow best practices.";
          "";
          "        Database Schema:";
          "        " +:+ py_str schema;
          "";
          "        Rules to follow:";
          "        1. Only write standardized SQL that works across major databases";
          "        2. Convert English questions into SQL queries based on the above schema";
          "        3. Add proper indexing suggestions when relevant";
          "        4. Use clear aliases and formatting";
          "        5. Consider performance implications";
          "        6. Avoid SQL injection risks";
          "        7. Include error handling where needed";
          "        8. SQL code should not have any syntax errors";
          "        9. Do not begin or end with any ``` or any other special characters";
          "        10. Only use tables and columns that exist in the schema above";
          "";
          "        Important note: Don't mention sql in your response, provide only the SQL query";
          "";
          "        Please provide only the SQL query without any explanations unless specifically asked for details.";
          "        " ].

(** [model prompt] is [self.model.generate_content(prompt).text]. *)
Definition generate_query (model : string -> string) (question : string)
    (schema : schema_arg) : string :=
  let schema_str :=
    match schema with
    | SchemaDict d => default (VStr "") (d !! "schema")
    | SchemaValue v => v
    end in
  let prompt := _get_prompt_template schema_str in
  model ((prompt +:+ (nl +:+ nl +:+ "User Question: ")) +:+ question).

End Query_Generator.

(** ** The [/get_schema] handler of [api.py] *)

Module api.

Import Data_Base_Manager.

Section WithDriver.
Context {P : Platform} {W Conn Cur : Type} {D : Driver W Conn Cur}.

Definition get_schema (db_data : DBConfig) : M (manager W Conn) dict :=
  try_except
    (schema_result <- Data_Base_Manager.get_schema db_data ;;
     success <- lift (dict_getitem "success" schema_result) ;;
     if negb (py_truthy success) then
       message <- lift (dict_getitem "message" schema_result) ;;
       raise (HTTPException 400 message)
     else ret schema_result)
    (fun e => HTTPException 500 (VStr ("Failed to retrieve schema: " +:+ exn_str e))).

End WithDriver.

End api.

(** ** The prompt, as specified *)

Module prompt_spec.

(** The fixed text before the schema. *)
Definition prompt_head : string :=
  lines [ "";
          "        You are an expert SQL assistant. You will help users write SQL queries that are efficient, secure and follow best practices.";
          "";
          "        Database Schema:";
          "        " ].

(** The fixed text after the schema. *)
Definition prompt_tail : string :=
  lines [ "";
          "";
          "        Rules to follow:";
          "        1. Only write standardized SQL that works across major databases";
          "        2. Convert English questions into SQL queries based on the above schema";
          "        3. Add proper indexing suggestions when relevant";
          "        4. Use clear aliases and formatting";
          "        5. Consider performance implications";
          "        6. Avoid SQL injection risks";
          "        7. Include error handling where needed";
          "        8. SQL code should not have any syntax errors";
          "        9. Do not begin or end with any ``` or any other special characters";
          "        10. Only use tables and columns that exist in the schema above";
          "";
          "        Important note: Don't mention sql in your response, provide only the SQL query";
          "";
          "        Please provide only the SQL query without any explanations unless specifically asked for details.";
          "        " ].

(** The template around the schema text, then the question. *)
Definition prompt (schema_text question : string) : string :=
  prompt_head +:+ schema_text +:+ prompt_tail
    +:+ nl +:+ nl +:+ "User Question: " +:+ question.

End prompt_spec.

(** ** A model of the SQLite engine *)

(** What sqlite3 answers to the statements the schema inspectors send,
    over a database given by its catalog.  It gives the interface
    [Driver] an instance on which the inspectors can be evaluated. *)
Module sqlite3_model.

Record column : Type := {
  col_name : string;
  col_type : string;
  col_notnull : bool;
  col_default : option string;
  col_pk : Z
}.

(** An entry of [sqlite_master] with [type='table']. *)
Record table : Type := {
  tbl_name : string;
  tbl_columns : list column
}.

Abbreviation catalog := (list table).

(** A row of [PRAGMA table_info]:
    [(cid, name, type, notnull, dflt_value, pk)]. *)
Definition table_info_row (cid : nat) (c : column) : row :=
  [ VInt (Z.of_nat cid); VStr (col_name c); VStr (col_type c);
    VInt (if col_notnull c then 1 else 0); opt_val (col_default c);
    VInt (col_pk c) ].

(** The columns of the table [name]; none when there is no such
    table. *)
Definition columns_of (cat : catalog) (name : string) : list column :=
  match List.find (fun t => String.eqb (tbl_name t) name) cat with
  | Some t => tbl_columns t
  | None => []
  end.

(** The rows of [PRAGMA table_info(name)]. *)
Definition table_info (cat : catalog) (name : string) : list row :=
  imap table_info_row (columns_of cat name).

Definition ascii_lower (a : ascii) : ascii :=
  let n := nat_of_ascii a in
  if ((65 <=? n) && (n <=? 90))%nat then ascii_of_nat (n + 32) else a.

(** [s] without the prefix [p], compared without regard to ASCII case. *)
Fixpoint strip_prefix_nocase (p s : string) : option string :=
  match p, s with
  | EmptyString, _ => Some s
  | String a p', String b s' =>
      if Ascii.eqb (ascii_lower a) (ascii_lower b) then strip_prefix_nocase p' s' else None
  | String _ _, EmptyString => None
  end.

(** [name LIKE 'sqlite_%']: [_] stands for one character, [%] for any
    number, and letters match in either case. *)
Definition like_sqlite_ (name : string) : bool :=
  match strip_prefix_nocase "sqlite" name with
  | Some (String _ _) => true
  | _ => false
  end.

(** [s] without the prefix [p]. *)
Fixpoint strip_prefix (p s : string) : option string :=
  match p, s with
  | EmptyString, _ => Some s
  | String a p', String b s' => if Ascii.eqb a b then strip_prefix p' s' else None
  | String _ _, EmptyString => None
  end.

(** [s] without the suffix [suf]. *)
Fixpoint strip_suffix (suf s : string) : option string :=
  if String.eqb s suf then Some EmptyString
  else match s with
       | EmptyString => None
       | String a s' => String a <$> strip_suffix suf s'
       end.

(** Whether the character ['] occurs in [s]. *)
Fixpoint has_quote (s : string) : bool :=
  match s with
  | EmptyString => false
  | String a s' => Ascii.eqb a "'" || has_quote s'
  end.

(** The argument of a [PRAGMA table_info(...);] statement. *)
Definition pragma_argument (sql : string) : option string :=
  match strip_prefix "PRAGMA table_info(" sql with
  | Some rest => strip_suffix ");" rest
  | None => None
  end.

(** The text of a string literal ['...'] without embedded quotes. *)
Definition string_literal (arg : string) : option string :=
  match strip_prefix "'" arg with
  | Some rest =>
      match strip_suffix "'" rest with
      | Some name => if has_quote name then None else Some name
      | None => None
      end
  | None => None
  end.

(** The result set of a statement: the names of its columns and its rows.
    An argument of the pragma that is a string literal names the table by
    its text.  How the tokenizer reads any other argument is not in the
    repository: [read_bare arg] is the name it reads there, once it has
    taken off brackets, double quotes, backquotes, blanks and comments,
    and [None] when it refuses the statement.  The text of the error is
    a stand-in. *)
Definition answer (read_bare : string -> option string) (cat : catalog) (sql : string)
    : outcome (list string * list row) :=
  if String.eqb sql
       "SELECT name FROM sqlite_master WHERE type='table' AND name NOT LIKE 'sqlite_%';"
  then
    Returned (["name"],
              map (fun t => [VStr (tbl_name t)])
                (List.filter (fun t => negb (like_sqlite_ (tbl_name t))) cat))
  else if String.eqb sql "SELECT name FROM sqlite_master WHERE type='table';" then
    Returned (["name"], map (fun t => [VStr (tbl_name t)]) cat)
  else
    match pragma_argument sql with
    | Some arg =>
        match string_literal arg with
        | Some name =>
            Returned (["cid"; "name"; "type"; "notnull"; "dflt_value"; "pk"],
                      table_info cat name)
        | None =>
            match read_bare arg with
            | Some name =>
                Returned (["cid"; "name"; "type"; "notnull"; "dflt_value"; "pk"],
                          table_info cat name)
            | None => Raised (DriverError ("near " +:+ arg +:+ ": syntax error"))
            end
        end
    | None => Raised (DriverError "statement outside the model")
    end.

(** The state of the cursor: the rows not yet fetched and the
    description of the last statement. *)
Record world : Type := {
  pending : list row;
  description : option (list row)
}.

(** A 7-item column description: the name, then six [None]. *)
Definition describe (name : string) : row :=
  [VStr name; VNone; VNone; VNone; VNone; VNone; VNone].

(** The driver: [can_open] tells which database files can be opened;
    there is no PostgreSQL or MySQL server.  A connection and its cursor
    are named by the file. *)
Definition driver (can_open : string -> bool) (read_bare : string -> option string)
    (cat : catalog) : Driver world string string :=
  {| sqlite3_connect := fun name =>
       if can_open name then ret name
       else raise (DriverError "unable to open database file");
     psycopg2_connect := fun _ _ _ _ _ => raise (DriverError "connection refused");
     mysql_connect := fun _ _ _ _ _ => raise (DriverError "connection refused");
     conn_commit := fun _ => ret tt;
     conn_cursor := fun c => ret c;
     cursor_execute := fun _ sql w =>
       match answer read_bare cat sql with
       | Returned (names, rows) =>
           ({| pending := rows; description := Some (map describe names) |}, Returned tt)
       | Raised e => (w, Raised e)
       end;
     cursor_description := fun _ w => description w;
     cursor_fetchall := fun _ w =>
       ({| pending := []; description := description w |}, Returned (pending w)) |}.

(** Names made of ASCII letters, digits and [_] that do not start with a
    digit. *)
Definition ident_char (a : ascii) : bool :=
  let n := nat_of_ascii a in
  ((65 <=? n) && (n <=? 90) || (97 <=? n) && (n <=? 122)
   || (48 <=? n) && (n <=? 57) || (n =? 95))%nat.

Fixpoint ident_chars (s : string) : bool :=
  match s with
  | EmptyString => true
  | String a s' => ident_char a && ident_chars s'
  end.

Definition plain_identifier (s : string) : bool :=
  match s with
  | EmptyString => false
  | String a _ => negb ((48 <=? nat_of_ascii a) && (nat_of_ascii a <=? 57))%nat && ident_chars s
  end.

(** Whether the character [c] occurs in [s]. *)
Fixpoint has_char (c : ascii) (s : string) : bool :=
  match s with
  | EmptyString => false
  | String a s' => Ascii.eqb a c || has_char c s'
  end.

(** The text between the delimiters [opening] and [closing], when [arg]
    is such a text and the closing delimiter does not occur in it. *)
Definition delimited (opening closing : ascii) (arg : string) : option string :=
  match arg with
  | String a rest =>
      if Ascii.eqb a opening then
        match strip_suffix (String closing EmptyString) rest with
        | Some name => if has_char closing name then None else Some name
        | None => None
        end
      else None
  | EmptyString => None
  end.

(** A sample of the reading of an argument written without quotes, for
    the sample databases: a plain identifier names itself, and a name
    between brackets, double quotes or backquotes names the text between
    them.  SQLite reads more than that (blanks, comments, numbers,
    doubled delimiters) and refuses the reserved words; the properties
    are stated for any reading. *)
Definition read_unquoted (arg : string) : option string :=
  if plain_identifier arg then Some arg
  else
    match delimited "[" "]" arg with
    | Some name => Some name
    | None =>
        match delimited (ascii_of_nat 34) (ascii_of_nat 34) arg with
        | Some name => Some name
        | None => delimited "`" "`" arg
        end
    end.

(** The schema text of a catalog: one section per table, one line per
    column with its name and declared type. *)
Definition column_line (c : column) : string :=
  "    - " +:+ col_name c +:+ " (" +:+ col_type c +:+ ")".

Definition table_section (cat : catalog) (name : string) : string :=
  nl +:+ "  Table: " +:+ name +:+ nl
    +:+ str_join nl (map column_line (columns_of cat name)).

Definition schema_text (cat : catalog) : string :=
  str_join nl (map (fun t => table_section cat (tbl_name t)) cat).

(** The names of the columns of [PRAGMA table_info]. *)
Definition table_info_names : list string :=
  ["cid"; "name"; "type"; "notnull"; "dflt_value"; "pk"].

(** The cursor after the rows of a [PRAGMA table_info] were fetched. *)
Definition after_table_info : world :=
  {| pending := []; description := Some (map describe table_info_names) |}.

(** The cursor after the rows of a [SELECT name] were fetched. *)
Definition after_select_name : world :=
  {| pending := []; description := Some [describe "name"] |}.

End sqlite3_model.

(** ** The schema text of a PostgreSQL catalog, as specified *)

Module postgres_spec.

(** A row of the catalog query of [_get_postgres_schema]; the default is
    absent or a text, the nullable flag is [YES] or [NO]. *)
Record catalog_row : Type := {
  table_name : string;
  column_name : string;
  data_type : string;
  default : option string;
  nullable : string
}.

(** The tuple the cursor hands over for a catalog row. *)
Definition tuple (r : catalog_row) : row :=
  [ VStr (table_name r); VStr (column_name r); VStr (data_type r);
    opt_val (default r); VStr (nullable r) ].

(** The line of a column: its name, its type, [NULL] or [NOT NULL], and a
    [DEFAULT] clause when the default is not empty. *)
Definition column_line (r : catalog_row) : string :=
  "    - " +:+ column_name r +:+ " (" +:+ data_type r +:+ " "
    +:+ (if String.eqb (nullable r) "YES" then "NULL" else "NOT NULL")
    +:+ match default r with
        | Some (String a d) => " DEFAULT " +:+ String a d
        | _ => ""
        end
    +:+ ")".

(** The distinct names of a list, in order of first appearance. *)
Fixpoint distinct (names : list string) : list string :=
  match names with
  | [] => []
  | n :: rest => n :: List.filter (fun m => negb (String.eqb m n)) (distinct rest)
  end.

(** The rows of table [t], in input order. *)
Definition rows_of (t : string) (rows : list catalog_row) : list catalog_row :=
  List.filter (fun r => String.eqb (table_name r) t) rows.

(** The section of table [t]: its heading, then one line per column. *)
Definition table_section (rows : list catalog_row) (t : string) : string :=
  nl +:+ "  Table: " +:+ t +:+ nl +:+ str_join nl (map column_line (rows_of t rows)).

(** One section per distinct table, in order of first appearance. *)
Definition schema_text (rows : list catalog_row) : string :=
  str_join nl (map (table_section rows) (distinct (map table_name rows))).

(** The runs of adjacent rows with equal table names, the first run being
    [acc], already read for table [t]. *)
Fixpoint runs_from (t : string) (acc rows : list catalog_row)
    : list (string * list catalog_row) :=
  match rows with
  | [] => [(t, acc)]
  | r :: rest =>
      if String.eqb (table_name r) t then runs_from t (acc ++ [r]) rest
      else (t, acc) :: runs_from (table_name r) [r] rest
  end.

(** The section of a run. *)
Definition run_section (run : string * list catalog_row) : string :=
  nl +:+ "  Table: " +:+ run.1 +:+ nl +:+ str_join nl (map column_line run.2).

(** The rows are sorted by table name for the order [le]. *)
Definition sorted_by_table (le : string -> string -> Prop)
    (rows : list catalog_row) : Prop :=
  StronglySorted (fun a b => le (table_name a) (table_name b)) rows.

End postgres_spec.

(** ** Sample databases and requests *)

Module examples.

Import sqlite3_model.

Definition users : table :=
  {| tbl_name := "users";
     tbl_columns :=
       [ {| col_name := "id"; col_type := "INTEGER"; col_notnull := true;
            col_default := None; col_pk := 1 |};
         {| col_name := "name"; col_type := "TEXT"; col_notnull := false;
            col_default := None; col_pk := 0 |} ] |}.

(** The table SQLite keeps for [AUTOINCREMENT] columns. *)
Definition sqlite_sequence : table :=
  {| tbl_name := "sqlite_sequence";
     tbl_columns :=
       [ {| col_name := "name"; col_type := ""; col_notnull := false;
            col_default := None; col_pk := 0 |};
         {| col_name := "seq"; col_type := ""; col_notnull := false;
            col_default := None; col_pk := 0 |} ] |}.

(** [repr] of a string free of quotes, backslashes and control
    characters, and [str] of an [HTTPException] as Starlette writes it. *)
Definition platform : Platform :=
  {| py_repr := fun s => "'" +:+ s +:+ "'";
     http_exception_str := fun c d => pretty c +:+ ": " +:+ py_str d |}.

(** Only the file [app.db] can be opened. *)
Definition can_open (name : string) : bool := String.eqb name "app.db".

(** A database with the table [users]. *)
Definition app : Driver world string string :=
  driver can_open read_unquoted [users].

(** A database with an [AUTOINCREMENT] column in [users]. *)
Definition app_autoincrement : Driver world string string :=
  driver can_open read_unquoted [users; sqlite_sequence].

(** A database whose only table has a name written with brackets. *)
Definition bracketed : table :=
  {| tbl_name := "[t]";
     tbl_columns :=
       [ {| col_name := "a"; col_type := "TEXT"; col_notnull := false;
            col_default := None; col_pk := 0 |} ] |}.

Definition app_bracketed : Driver world string string :=
  driver can_open read_unquoted [bracketed].

(** A database without tables. *)
Definition empty_db : Driver world string string :=
  driver can_open read_unquoted [].

(** A cursor that was not used yet. *)
Definition w0 : world := {| pending := []; description := None |}.

Definition app_db : DBConfig :=
  {| db_type := "SQLite"; db_host := None; db_port := None; db_name := "app.db";
     db_user := None; db_password := None |}.

(** The same target with credentials and a port. *)
Definition app_db_as_admin : DBConfig :=
  {| db_type := "SQLite"; db_host := None; db_port := Some "5432"; db_name := "app.db";
     db_user := Some "admin"; db_password := Some "secret" |}.

(** A file that cannot be opened. *)
Definition missing_db : DBConfig :=
  {| db_type := "SQLite"; db_host := None; db_port := None; db_name := "/nowhere/app.db";
     db_user := None; db_password := None |}.

(** A dialect outside the three. *)
Definition oracle_db : DBConfig :=
  {| db_type := "Oracle"; db_host := Some "db.example.org"; db_port := Some "1521";
     db_name := "orcl"; db_user := Some "scott"; db_password := Some "tiger" |}.

(** The manager once [app.db] is connected. *)
Definition connected : Data_Base_Manager.manager world string :=
  Data_Base_Manager.store "SQLite_app.db_None" (Some "app.db") w0
    (Data_Base_Manager.init w0).

(** A PostgreSQL server whose cursor answers every statement with the
    rows [rows]. *)
Definition postgres (rows : list row) : Driver unit unit unit :=
  {| sqlite3_connect := fun _ => ret tt;
     psycopg2_connect := fun _ _ _ _ _ => ret tt;
     mysql_connect := fun _ _ _ _ _ => ret tt;
     conn_commit := fun _ => ret tt;
     conn_cursor := fun _ => ret tt;
     cursor_execute := fun _ _ => ret tt;
     cursor_description := fun _ _ => None;
     cursor_fetchall := fun _ => ret rows |}.

(** Catalog rows of two tables, sorted by table name. *)
Definition catalog_rows : list postgres_spec.catalog_row :=
  [ {| postgres_spec.table_name := "orders"; postgres_spec.column_name := "id";
       postgres_spec.data_type := "integer";
       postgres_spec.default := Some "nextval('orders_id_seq'::regclass)";
       postgres_spec.nullable := "NO" |};
    {| postgres_spec.table_name := "orders"; postgres_spec.column_name := "note";
       postgres_spec.data_type := "text"; postgres_spec.default := None;
       postgres_spec.nullable := "YES" |};
    {| postgres_spec.table_name := "users"; postgres_spec.column_name := "name";
       postgres_spec.data_type := "text"; postgres_spec.default := Some "";
       postgres_spec.nullable := "NO" |} ].

End examples.

(** ** The other handlers of [api.py] *)

Module api_handlers.

Import Data_Base_Manager.

(** The response of [/execute_query] and [/execute_raw_query].
    [results] is [None] for the empty list and [Some df] for
    [df.to_dict(orient="records")]; [row_count] is [len(df)], the number
    of rows, or [0]. *)
Record query_response : Type := {
  success : bool;
  query : string;
  results : option DataFrame;
  row_count : nat
}.

Definition query_response_of (sql_query : string) (results : option DataFrame)
    : query_response :=
  {| success := true;
     query := sql_query;
     results := results;
     row_count := match results with
                  | Some df => length (df_rows df)
                  | None => 0
                  end |}.

Section WithDriver.
Context {P : Platform} {W Conn Cur : Type} {D : Driver W Conn Cur}.

(** [model prompt] is the text the generative model answers, and
    [isspace] is [str.isspace]. *)
Variables (model : string -> string) (isspace : string -> bool).

(** [try: m  except HTTPException: raise  except Exception as e:
    raise h(e)]. *)
Definition try_except_http {A} (m : M (manager W Conn) A) (h : exn -> exn)
    : M (manager W Conn) A :=
  fun s =>
    match m s with
    | (s', Raised (HTTPException c d)) => (s', Raised (HTTPException c d))
    | (s', Raised e) => (s', Raised (h e))
    | r => r
    end.

(** The database drivers raise classes of their own, none of which
    derives from the built-in [ConnectionError]: [except ConnectionError]
    catches the constructor [ConnectionError] only. *)
Definition connect_db (db_data : DBConfig) : M (manager W Conn) dict :=
  fun s =>
    match get_connection db_data
            (fun conn =>
               cursor <- cursor_of conn ;;
               cursor_execute cursor "SELECT 1" ;;;
               ret (<["success" := VBool true]>
                      (<["message" :=
                           VStr ("Successfully connected to " +:+ db_type db_data
                                   +:+ " database")]> ∅))) s with
    | (s', Raised (ConnectionError m)) =>
        (s', Raised (HTTPException 503
                       (VStr ("Database connection failed: "
                                +:+ exn_str (ConnectionError m)))))
    | (s', Raised e) =>
        (s', Raised (HTTPException 500 (VStr ("An error occurred: " +:+ exn_str e))))
    | (s', Returned r) => (s', Returned r)
    end.

(** The first lines of [generate_sql] and [execute_sql]: the schema, or
    the [HTTPException] with status 400. *)
Definition schema_or_400 (db_data : DBConfig) : M (manager W Conn) dict :=
  schema_result <- Data_Base_Manager.get_schema db_data ;;
  success <- lift (dict_getitem "success" schema_result) ;;
  if negb (py_truthy success) then
    message <- lift (dict_getitem "message" schema_result) ;;
    raise (HTTPException 400 message)
  else ret schema_result.

Definition generate_sql (question : string) (db_data : DBConfig)
    : M (manager W Conn) dict :=
  try_except_http
    (schema_result <- schema_or_400 db_data ;;
     let query :=
       Query_Generator.generate_query model question
         (Query_Generator.SchemaDict schema_result) in
     if String.eqb query "" || isspace query then
       raise (HTTPException 400 (VStr "Failed to generate valid SQL query"))
     else
       ret (<["success" := VBool true]>
              (<["sql_query" := VStr query]>
                 (<["db_type" := VStr (db_type db_data)]> ∅))))
    (fun e => HTTPException 500 (VStr ("Query generation failed: " +:+ exn_str e))).

(** [execute_sql] on a request that carries its [sql_query]. *)
Definition execute_sql (sql_query : string) (db_data : DBConfig)
    : M (manager W Conn) query_response :=
  try_except_http
    (schema_or_400 db_data ;;;
     results <- Data_Base_Manager.execute_query sql_query db_data ;;
     ret (query_response_of sql_query results))
    (fun e => HTTPException 500 (VStr ("Query execution failed: " +:+ exn_str e))).

Definition execute_raw_sql (db_data : DBConfig) (query : string)
    : M (manager W Conn) query_response :=
  try_except
    (results <- Data_Base_Manager.execute_query query db_data ;;
     ret (query_response_of query results))
    (fun e => HTTPException 500 (VStr ("Raw query execution failed: " +:+ exn_str e))).

End WithDriver.

End api_handlers.

(** ** The application of [fast_api.py] *)

Module fast_api_app.

Import Data_Base_Manager.

(** The response of [/get_schema]: the dictionary of the manager under
    [schema]. *)
Record schema_response : Type := {
  success : bool;
  schema : dict
}.

Section WithDriver.
Context {P : Platform} {W Conn Cur : Type} {D : Driver W Conn Cur}.

(** [model prompt] is the text the generative model answers, and
    [dict_str] is [str] of a dictionary. *)
Variables (model : string -> string) (dict_str : dict -> string).

Definition test_connection (db_data : DBConfig) (s : manager W Conn)
    : manager W Conn * outcome dict :=
  match fast_api.get_connection db_data
          (fun conn =>
             cursor <- cursor_of conn ;;
             cursor_execute cursor "SELECT 1" ;;;
             ret (<["success" := VBool true]>
                    (<["message" := VStr "Connection successful!"]> ∅))) s with
  | (s', Returned r) => (s', Returned r)
  | (s', Raised e) =>
      (s', Returned (<["success" := VBool false]>
                      (<["message" := VStr ("Connection failed: " +:+ exn_str e)]> ∅)))
  end.

(** [generate_query] of the [QueryGenerator] of this file: the argument
    goes into the template as it is, so a dictionary goes in as its
    [str]. *)
Definition generate_query (question : string) (schema : Query_Generator.schema_arg)
    : string :=
  let schema_text :=
    match schema with
    | Query_Generator.SchemaDict d => VStr (dict_str d)
    | Query_Generator.SchemaValue v => v
    end in
  let prompt := Query_Generator._get_prompt_template schema_text in
  model ((prompt +:+ (nl +:+ nl +:+ "User Question: ")) +:+ question).

(** [connect_db] calls [get_connection] and drops the context manager it
    returns: the generator behind it is never started. *)
Definition connect_db (db_data : DBConfig) : M (manager W Conn) dict :=
  try_except
    (ret (<["success" := VBool true]>
            (<["message" := VStr "Connection successful!"]> ∅)))
    (fun e => HTTPException 400 (VStr (exn_str e))).

Definition get_schema (db_data : DBConfig) : M (manager W Conn) schema_response :=
  try_except
    (schema <- fast_api.get_schema db_data ;;
     ret {| success := true; schema := schema |})
    (fun e => HTTPException 400 (VStr (exn_str e))).

Definition generate_sql (question : string) (db_data : DBConfig)
    : M (manager W Conn) dict :=
  try_except
    (schema <- fast_api.get_schema db_data ;;
     let query := generate_query question (Query_Generator.SchemaDict schema) in
     ret (<["success" := VBool true]> (<["sql_query" := VStr query]> ∅)))
    (fun e => HTTPException 400 (VStr (exn_str e))).

End WithDriver.

End fast_api_app.

(** ** Schema texts for unsorted catalogs *)

Module schema_spec.

Import postgres_spec.

(** The runs of adjacent rows with equal table names. *)
Definition runs (rows : list catalog_row) : list (string * list catalog_row) :=
  match rows with
  | [] => []
  | r :: rest => runs_from (table_name r) [r] rest
  end.

(** A row of the catalog query of [fast_api.py]. *)
Record column_row : Type := {
  cr_table : string;
  cr_column : string;
  cr_type : string
}.

Definition column_tuple (r : column_row) : row :=
  [VStr (cr_table r); VStr (cr_column r); VStr (cr_type r)].

Definition simple_line (r : column_row) : string :=
  "    - " +:+ cr_column r +:+ " (" +:+ cr_type r +:+ ")".

(** The lines of table [t], in input order. *)
Definition lines_of (t : string) (rows : list column_row) : list string :=
  map simple_line (List.filter (fun r => String.eqb (cr_table r) t) rows).

(** One section per distinct table, in order of first appearance, each
    with all the columns of its table. *)
Definition grouped_sections (rows : list column_row) : list string :=
  map (fun t => nl +:+ "  Table: " +:+ t +:+ nl +:+ str_join nl (lines_of t rows))
    (distinct (map cr_table rows)).

(** The tables the inspector of [Data_Base_Manager.py] asks for. *)
Definition listed (cat : sqlite3_model.catalog) : sqlite3_model.catalog :=
  List.filter (fun t => negb (sqlite3_model.like_sqlite_ (sqlite3_model.tbl_name t))) cat.

(** The sections of the tables [tables] of the catalog [cat]. *)
Definition sections_of (cat tables : sqlite3_model.catalog) : string :=
  str_join nl
    (map (fun t => sqlite3_model.table_section cat (sqlite3_model.tbl_name t)) tables).

End schema_spec.

(** ** A model of the MySQL server *)

(** What MySQL answers to the statements the schema inspectors send, over
    a database given by its tables: [SHOW TABLES], [DESCRIBE] of a name
    between backticks and [SHOW COLUMNS FROM] a name without them. *)
Module mysql_model.

(** A row of [DESCRIBE]: [(Field, Type, Null, Key, Default, Extra)]. *)
Record column : Type := {
  field : string;
  type_ : string;
  null : string;
  key : string;
  default : option string;
  extra : string
}.

Record table : Type := {
  tbl_name : string;
  tbl_columns : list column
}.

Abbreviation catalog := (list table).

Definition describe_row (c : column) : row :=
  [ VStr (field c); VStr (type_ c); VStr (null c); VStr (key c);
    opt_val (default c); VStr (extra c) ].

(** The columns of the table [name]; none when there is no such
    table. *)
Definition columns_of (cat : catalog) (name : string) : list column :=
  match List.find (fun t => String.eqb (tbl_name t) name) cat with
  | Some t => tbl_columns t
  | None => []
  end.

(** Whether the character [`] occurs in [s]. *)
Fixpoint has_backtick (s : string) : bool :=
  match s with
  | EmptyString => false
  | String a s' => Ascii.eqb a "`" || has_backtick s'
  end.

(** The rows of the columns of [name], or the error for a name that is
    not a table. *)
Definition describe (cat : catalog) (name : string) : outcome (list row) :=
  match List.find (fun t => String.eqb (tbl_name t) name) cat with
  | Some t => Returned (map describe_row (tbl_columns t))
  | None => Raised (DriverError ("Table '" +:+ name +:+ "' doesn't exist"))
  end.

(** The result set of a statement.  A name between backticks that holds
    no backtick names the table by its text.  How the parser reads the
    text after [SHOW COLUMNS FROM] is not in the repository:
    [read_bare text] is the name of the table it reads there, once it
    has taken off backticks, blanks, comments and the name of the
    database, and [None] when it refuses the statement.  The server
    holds this one database, and the texts of the errors are
    stand-ins. *)
Definition answer (read_bare : string -> option string) (cat : catalog) (sql : string)
    : outcome (list row) :=
  if String.eqb sql "SHOW TABLES;" then
    Returned (map (fun t => [VStr (tbl_name t)]) cat)
  else
    match sqlite3_model.strip_prefix "DESCRIBE `" sql with
    | Some rest =>
        match sqlite3_model.strip_suffix "`;" rest with
        | Some name =>
            if has_backtick name
            then Raised (DriverError "You have an error in your SQL syntax")
            else describe cat name
        | None => Raised (DriverError "You have an error in your SQL syntax")
        end
    | None =>
        match sqlite3_model.strip_prefix "SHOW COLUMNS FROM " sql with
        | Some rest =>
            match sqlite3_model.strip_suffix ";" rest with
            | Some text =>
                match read_bare text with
                | Some name => describe cat name
                | None => Raised (DriverError "You have an error in your SQL syntax")
                end
            | None => Raised (DriverError "You have an error in your SQL syntax")
            end
        | None => Raised (DriverError "statement outside the model")
        end
    end.

(** A sample of the reading of a name written without backticks, for the
    sample databases: a plain identifier names itself and a name between
    backticks names the text between them.  MySQL reads more than that
    and refuses the reserved words; the properties are stated for any
    reading. *)
Definition read_unquoted (text : string) : option string :=
  if sqlite3_model.plain_identifier text then Some text
  else sqlite3_model.delimited "`" "`" text.

(** The driver: the world is the rows not yet fetched; there is one
    server, and no SQLite file or PostgreSQL server. *)
Definition driver (read_bare : string -> option string) (cat : catalog)
    : Driver (list row) string string :=
  {| sqlite3_connect := fun _ => raise (DriverError "unable to open database file");
     psycopg2_connect := fun _ _ _ _ _ => raise (DriverError "connection refused");
     mysql_connect := fun _ database _ _ _ => ret database;
     conn_commit := fun _ => ret tt;
     conn_cursor := fun c => ret c;
     cursor_execute := fun _ sql w =>
       match answer read_bare cat sql with
       | Returned rows => (rows, Returned tt)
       | Raised e => (w, Raised e)
       end;
     cursor_description := fun _ _ => None;
     cursor_fetchall := fun _ w => ([], Returned w) |}.

(** The line of a column as [_get_mysql_schema] is to write it: name,
    type, [NULL] or [NOT NULL], then the default, the key and the extra
    when they are not empty. *)
Definition column_line (c : column) : string :=
  "    - " +:+ field c +:+ " (" +:+ type_ c +:+ " "
    +:+ (if String.eqb (null c) "YES" then "NULL" else "NOT NULL")
    +:+ match default c with
        | Some (String a d) => " DEFAULT " +:+ String a d
        | _ => ""
        end
    +:+ match key c with
        | String a k => " " +:+ String a k
        | EmptyString => ""
        end
    +:+ match extra c with
        | String a x => " " +:+ String a x
        | EmptyString => ""
        end
    +:+ ")".

(** The line of a column as [fast_api.py] writes it: name and type. *)
Definition simple_line (c : column) : string :=
  "    - " +:+ field c +:+ " (" +:+ type_ c +:+ ")".

Definition schema_text (line : column -> string) (cat : catalog) : string :=
  str_join nl
    (map (fun t => nl +:+ "  Table: " +:+ tbl_name t +:+ nl
                     +:+ str_join nl (map line (columns_of cat (tbl_name t)))) cat).

End mysql_model.

(** ** More sample databases and requests *)

Module more_examples.

Import examples.

(** A MySQL database with two tables. *)
Definition shop : mysql_model.catalog :=
  [ {| mysql_model.tbl_name := "orders";
       mysql_model.tbl_columns :=
         [ {| mysql_model.field := "id"; mysql_model.type_ := "int";
              mysql_model.null := "NO"; mysql_model.key := "PRI";
              mysql_model.default := None; mysql_model.extra := "auto_increment" |};
           {| mysql_model.field := "state"; mysql_model.type_ := "varchar(8)";
              mysql_model.null := "YES"; mysql_model.key := "";
              mysql_model.default := Some "new"; mysql_model.extra := "" |} ] |};
    {| mysql_model.tbl_name := "users";
       mysql_model.tbl_columns :=
         [ {| mysql_model.field := "name"; mysql_model.type_ := "text";
              mysql_model.null := "NO"; mysql_model.key := "";
              mysql_model.default := None; mysql_model.extra := "" |} ] |} ].

Definition shop_server : Driver (list row) string string :=
  mysql_model.driver mysql_model.read_unquoted shop.

Definition shop_db : DBConfig :=
  {| db_type := "MySQL"; db_host := Some "db1"; db_port := Some "3306";
     db_name := "shop"; db_user := Some "app"; db_password := Some "secret" |}.

(** The manager once [shop] is connected. *)
Definition shop_connected : Data_Base_Manager.manager (list row) string :=
  Data_Base_Manager.store "MySQL_shop_db1" (Some "shop") [] (Data_Base_Manager.init []).

(** A PostgreSQL database. *)
Definition orders_db : DBConfig :=
  {| db_type := "PostgreSQL"; db_host := Some "db2"; db_port := Some "5432";
     db_name := "orders"; db_user := Some "app"; db_password := Some "secret" |}.

(** The database [shop_eu] on host [db1] and the database [shop] on host
    [eu_db1]. *)
Definition shop_eu_db : DBConfig :=
  {| db_type := "MySQL"; db_host := Some "db1"; db_port := None;
     db_name := "shop_eu"; db_user := None; db_password := None |}.

(** A server that refuses the first connection and accepts the later
    ones; the world counts the attempts. *)
Definition flaky : Driver nat unit unit :=
  {| sqlite3_connect := fun _ w =>
       match w with
       | O => (1%nat, Raised (DriverError "unable to open database file"))
       | S _ => (S w, Returned tt)
       end;
     psycopg2_connect := fun _ _ _ _ _ => raise (DriverError "connection refused");
     mysql_connect := fun _ _ _ _ _ => raise (DriverError "connection refused");
     conn_commit := fun _ => ret tt;
     conn_cursor := fun _ => ret tt;
     cursor_execute := fun _ _ => ret tt;
     cursor_description := fun _ _ => None;
     cursor_fetchall := fun _ => ret [] |}.

(** Catalog rows in which the rows of [orders] are not adjacent. *)
Definition unsorted_rows : list postgres_spec.catalog_row :=
  [ {| postgres_spec.table_name := "orders"; postgres_spec.column_name := "id";
       postgres_spec.data_type := "integer"; postgres_spec.default := None;
       postgres_spec.nullable := "NO" |};
    {| postgres_spec.table_name := "users"; postgres_spec.column_name := "name";
       postgres_spec.data_type := "text"; postgres_spec.default := None;
       postgres_spec.nullable := "NO" |};
    {| postgres_spec.table_name := "orders"; postgres_spec.column_name := "note";
       postgres_spec.data_type := "text"; postgres_spec.default := None;
       postgres_spec.nullable := "YES" |} ].

Definition unsorted_columns : list schema_spec.column_row :=
  [ {| schema_spec.cr_table := "orders"; schema_spec.cr_column := "id";
       schema_spec.cr_type := "integer" |};
    {| schema_spec.cr_table := "users"; schema_spec.cr_column := "name";
       schema_spec.cr_type := "text" |};
    {| schema_spec.cr_table := "orders"; schema_spec.cr_column := "note";
       schema_spec.cr_type := "text" |} ].

(** A model that answers every prompt with the same statement. *)
Definition fixed_model (prompt : string) : string := "SELECT name FROM users".

(** [str.isspace] on the characters space, tab, line feed and carriage
    return. *)
Fixpoint only_spaces (s : string) : bool :=
  match s with
  | EmptyString => true
  | String a s' =>
      (Ascii.eqb a " " || Ascii.eqb a (ascii_of_nat 9) || Ascii.eqb a (ascii_of_nat 10)
       || Ascii.eqb a (ascii_of_nat 13)) && only_spaces s'
  end.

Definition isspace (s : string) : bool :=
  match s with
  | EmptyString => false
  | String _ _ => only_spaces s
  end.

End more_examples.

(** * Properties *)

(** ** The monad *)

Lemma bind_returned {W A B} (m : M W A) (k : A -> M W B) w w' a :
  m w = (w', Returned a) -> bind m k w = k a w'.
Proof. intros E. unfold bind. by rewrite E. Qed.

(** ** Strings *)

Lemma append_assoc (a b c : string) : (a +:+ b) +:+ c = a +:+ (b +:+ c).
Proof. induction a as [|x a IH]; [done|]. exact (f_equal (String x) IH). Qed.

Lemma append_length (a b : string) :
  String.length (a +:+ b) = (String.length a + String.length b)%nat.
Proof. induction a as [|x a IH]; [done|]. exact (f_equal S IH). Qed.

(** ** The connection cache of [Data_Base_Manager.py] *)

Section Data_Base_Manager_cache.
Import Data_Base_Manager.
Context {P : Platform} {W Conn Cur : Type} {D : Driver W Conn Cur}.
Implicit Types (s : manager W Conn) (d : DBConfig) (k : string).

(** The key depends on the dialect, the database name and the host
    only. *)
Lemma conn_key_same_target d d' :
  db_type d = db_type d' -> db_name d = db_name d' -> db_host d = db_host d' ->
  conn_key d = conn_key d'.
Proof. intros Ht Hn Hh. unfold conn_key. by rewrite Ht, Hn, Hh. Qed.

(** A cached key is yielded as it is: no driver is called and the manager
    is unchanged. *)
Lemma get_connection_enter_cached d s c :
  connections s !! conn_key d = Some c ->
  get_connection_enter d s = (s, Returned c).
Proof.
  intros Hc. unfold get_connection_enter, get_connection_try, dict_getitem.
  by rewrite Hc; simpl; rewrite Hc.
Qed.

(** A key that is not cached and whose creation returns [c]: [c] is
    stored and yielded. *)
Lemma get_connection_enter_fresh d s w' c :
  connections s !! conn_key d = None ->
  _create_connection d (world s) = (w', Returned c) ->
  get_connection_enter d s = (store (conn_key d) c w' s, Returned c).
Proof.
  intros Hn Hc. unfold get_connection_enter, get_connection_try, dict_getitem.
  rewrite Hn, Hc. simpl. by rewrite lookup_insert_eq.
Qed.

Lemma keeps_refl s : keeps s s.
Proof. by intros k c. Qed.

Lemma keeps_trans s1 s2 s3 : keeps s1 s2 -> keeps s2 s3 -> keeps s1 s3.
Proof. intros H12 H23 k c Hk. by apply H23, H12. Qed.

Lemma keeps_set_world w s : keeps s (set_world w s).
Proof. by intros k c. Qed.

Lemma keeps_store k c w s : connections s !! k = None -> keeps s (store k c w s).
Proof.
  intros Hn k' c' Hk'. simpl. rewrite lookup_insert_ne; [done|].
  intros ->. congruence.
Qed.

Lemma keeps_finally {A} d (p : outcome A) s :
  keeps s (get_connection_finally d p s).1.
Proof.
  unfold get_connection_finally.
  destruct (String.eqb _ _); [|apply keeps_refl].
  destruct (dict_getitem _ _) as [[c|]|e]; try apply keeps_refl.
  destruct (conn_commit c (world s)) as [w' [[]|e]]; apply keeps_set_world.
Qed.

Lemma keeps_try d s : keeps s (get_connection_try d s).1.
Proof.
  unfold get_connection_try.
  destruct (connections s !! conn_key d) as [c|] eqn:Hk; [apply keeps_refl|].
  destruct (_create_connection d (world s)) as [w' [c|e]]; simpl.
  - by apply keeps_store.
  - apply keeps_set_world.
Qed.

Lemma keeps_enter d s : keeps s (get_connection_enter d s).1.
Proof.
  unfold get_connection_enter.
  pose proof (keeps_try d s) as Ht.
  destruct (get_connection_try d s) as [s' [c|e]]; [done|].
  eapply keeps_trans; [exact Ht|apply keeps_finally].
Qed.

Lemma keeps_exit {A} d (r : outcome A) s : keeps s (get_connection_exit d r s).1.
Proof. destruct r; apply keeps_finally. Qed.

Lemma keeps_get_connection {A} d (body : option Conn -> M W A) s :
  keeps s (get_connection d body s).1.
Proof.
  unfold get_connection.
  pose proof (keeps_enter d s) as He.
  destruct (get_connection_enter d s) as [s' [conn|e]]; [|done].
  destruct (body conn (world s')) as [w' r].
  eapply keeps_trans; [exact He|].
  eapply keeps_trans; [apply (keeps_set_world w')|apply keeps_exit].
Qed.

Lemma keeps_get_schema d s : keeps s (get_schema d s).1.
Proof.
  unfold get_schema.
  pose proof (keeps_get_connection d (get_schema_body d) s) as Hg.
  by destruct (get_connection d (get_schema_body d) s) as [s' [r|e]].
Qed.

Lemma keeps_execute_query sql d s : keeps s (execute_query sql d s).1.
Proof.
  unfold execute_query.
  pose proof (keeps_get_connection d (execute_query_body sql) s) as Hg.
  by destruct (get_connection d (execute_query_body sql) s) as [s' [r|e]].
Qed.

Lemma keeps_run_call (c : call) s : keeps s (run_call c s).
Proof.
  destruct c; simpl.
  - apply keeps_get_connection.
  - apply keeps_get_schema.
  - apply keeps_execute_query.
Qed.

Lemma keeps_run (calls : list call) s : keeps s (run calls s).
Proof.
  revert s. induction calls as [|c calls IH]; intros s; [apply keeps_refl|].
  simpl. eapply keeps_trans; [apply keeps_run_call|apply IH].
Qed.

(** *** Live connections are opened once per key *)





(** With an exception pending, the [finally] clause ends in an
    exception. *)
Lemma finally_raised {A} d (e : exn) s :
  exists e', (get_connection_finally (A:=A) d (Raised e) s).2 = Raised e'.
Proof.
  unfold get_connection_finally.
  destruct (String.eqb _ _); [|by eexists].
  destruct (dict_getitem _ _) as [[c|]|e0]; try by eexists.
  destruct (conn_commit c (world s)) as [w' [[]|e0]]; by eexists.
Qed.






End Data_Base_Manager_cache.

(** ** The connection cache of [fast_api.py] *)

Section fast_api_cache.
Import Data_Base_Manager.
Context {P : Platform} {W Conn Cur : Type} {D : Driver W Conn Cur}.
Implicit Types (s : manager W Conn) (d : DBConfig) (k : string).









End fast_api_cache.

(** ** Properties of the connection manager *)

Section connection_manager.
Import Data_Base_Manager.
Context {P : Platform} {W Conn Cur : Type} {D : Driver W Conn Cur}.
Implicit Types (s : manager W Conn) (d : DBConfig).


(** C7.  No operation of the manager evicts or rebinds a cache entry: a
    key that maps to a connection before a [with get_connection] block
    with any body, a [get_schema], an [execute_query] or any sequence of
    these maps to the same connection after it, whether the operation
    returned or raised. *)
Theorem connections_never_evicted s (k : string) (v : option Conn) :
  connections s !! k = Some v ->
  (forall (A : Type) d (body : option Conn -> M W A),
     connections (get_connection d body s).1 !! k = Some v)
  /\ (forall d, connections (get_schema d s).1 !! k = Some v)
  /\ (forall (sql : string) d, connections (execute_query sql d s).1 !! k = Some v)
  /\ (forall calls : list call, connections (run calls s) !! k = Some v).
Proof.
  intros Hk. repeat split.
  - intros A d body. by apply keeps_get_connection.
  - intros d. by apply keeps_get_schema.
  - intros sql d. by apply keeps_execute_query.
  - intros calls. by apply keeps_run.
Qed.

(** For a dialect without the commit on exit, a failed creation reaches
    the caller as the [ConnectionError] of the [except] clause. *)
Lemma connection_error_reported s d (w' : W) (e : exn) :
  db_type d <> "SQLite" ->
  connections s !! conn_key d = None ->
  _create_connection d (world s) = (w', Raised e) ->
  get_connection_enter d s
  = (set_world w' s,
     Raised (ConnectionError ("Database connection failed: " +:+ exn_str e))).
Proof.
  intros Ht%String.eqb_neq Hn Hc.
  unfold get_connection_enter, get_connection_try.
  rewrite Hn, Hc. unfold get_connection_finally. by rewrite Ht.
Qed.

(** C8.  When [_create_connection] raises for a SQLite configuration
    whose key is not cached, [get_connection] raises the [KeyError] of
    the [finally] clause, not the [ConnectionError] of the [except]
    clause; the body of the [with] block does not run. *)
Theorem sqlite_connection_error_masked s d (w' : W) (e : exn) :
  db_type d = "SQLite" ->
  connections s !! conn_key d = None ->
  _create_connection d (world s) = (w', Raised e) ->
  get_connection_enter d s = (set_world w' s, Raised (KeyError (conn_key d)))
  /\ forall (A : Type) (body : option Conn -> M W A),
       get_connection d body s = (set_world w' s, Raised (KeyError (conn_key d))).
Proof.
  intros Ht Hn Hc.
  assert (get_connection_enter d s = (set_world w' s, Raised (KeyError (conn_key d)))) as He.
  { unfold get_connection_enter, get_connection_try.
    rewrite Hn, Hc. unfold get_connection_finally, dict_getitem.
    rewrite Ht. simpl. by rewrite Hn. }
  split; [done|]. intros A body. unfold get_connection. by rewrite He.
Qed.

(** C10.  Once a connection is cached under the key of [d1], entering
    [get_connection] with any [d2] of the same dialect, database name and
    host yields that connection and changes neither the manager nor the
    world, whatever the user, password and port of [d2]. *)
Theorem cached_connection_ignores_credentials s d1 d2 (c : option Conn) :
  db_type d1 = db_type d2 -> db_name d1 = db_name d2 -> db_host d1 = db_host d2 ->
  connections s !! conn_key d1 = Some c ->
  get_connection_enter d2 s = (s, Returned c)
  /\ get_connection_enter d1 s = get_connection_enter d2 s.
Proof.
  intros Ht Hn Hh Hc.
  assert (get_connection_enter d2 s = (s, Returned c)) as H2.
  { apply get_connection_enter_cached.
    by rewrite <- (conn_key_same_target d1 d2 Ht Hn Hh). }
  split; [done|]. rewrite H2. by apply get_connection_enter_cached.
Qed.

End connection_manager.

(** ** Properties of schema inspection and the handlers *)

Section schema_inspection.
Import Data_Base_Manager.
Context {P : Platform} {W Conn Cur : Type} {D : Driver W Conn Cur}.
Implicit Types (s : manager W Conn) (d : DBConfig).

(** A dialect outside the three falls through [_create_connection], which
    returns [None] without calling a driver. *)
Lemma create_connection_unsupported d (w : W) :
  db_type d <> "SQLite" -> db_type d <> "PostgreSQL" -> db_type d <> "MySQL" ->
  _create_connection d w = (w, Returned None).
Proof.
  intros H1%String.eqb_neq H2%String.eqb_neq H3%String.eqb_neq.
  unfold _create_connection, try_except. by rewrite H1, H2, H3.
Qed.

(** [get_schema] does not raise. *)
Lemma get_schema_returns d s : exists s' r, get_schema d s = (s', Returned r).
Proof.
  unfold get_schema.
  destruct (get_connection d (get_schema_body d) s) as [s' [r|e]]; by do 2 eexists.
Qed.

(** C3, at the inputs where the code departs from it.  For a dialect
    other than SQLite, PostgreSQL and MySQL whose key is not cached,
    [get_schema] does not raise and returns [success = False], but the
    message is that of the failed [conn.cursor()] on the [None] that
    [_create_connection] returned: it does not name the dialect, and the
    [ValueError] branch is not reached. *)
Theorem get_schema_unsupported_type d s :
  db_type d <> "SQLite" -> db_type d <> "PostgreSQL" -> db_type d <> "MySQL" ->
  connections s !! conn_key d = None ->
  get_schema d s =
    (store (conn_key d) None (world s) s,
     Returned (<["success" := VBool false]>
                 (<["message" :=
                      VStr "Failed to get schema: Database connection failed: 'NoneType' object has no attribute 'cursor'"]> ∅))).
Proof.
  intros H1 H2 H3 Hn.
  unfold get_schema, get_connection.
  rewrite (get_connection_enter_fresh d s (world s) None Hn
             (create_connection_unsupported d (world s) H1 H2 H3)).
  apply String.eqb_neq in H1.
  cbn. unfold get_connection_finally. rewrite H1. by destruct s.
Qed.

(** C9.  When [get_schema] of the manager reports a failure, the handler
    of [/get_schema] raises the [HTTPException] with status 400 inside its
    [try] block, catches it in [except Exception] and raises an
    [HTTPException] with status 500 whose detail is the fixed prefix
    followed by [str] of the caught exception. *)
Theorem get_schema_handler_failure_is_500 d s s' (r : dict) (success message : pyval) :
  get_schema d s = (s', Returned r) ->
  r !! "success" = Some success ->
  py_truthy success = false ->
  r !! "message" = Some message ->
  api.get_schema d s =
    (s', Raised (HTTPException 500
                   (VStr ("Failed to retrieve schema: "
                            +:+ exn_str (HTTPException 400 message))))).
Proof.
  intros Hg Hs Ht Hm. unfold api.get_schema, try_except.
  rewrite (bind_returned _ _ _ _ _ Hg).
  unfold lift, bind, dict_getitem. rewrite Hs, Ht. cbn. by rewrite Hm.
Qed.

(** Whatever the handler raises has status 500. *)
Lemma get_schema_handler_raises_500 d s (e : exn) :
  (api.get_schema d s).2 = Raised e ->
  exists detail, e = HTTPException 500 detail.
Proof.
  unfold api.get_schema, try_except.
  destruct (bind _ _ s) as [s' [r|e']]; simpl; [done|].
  intros [= <-]. by eexists.
Qed.

End schema_inspection.

(** ** Properties of query execution *)

Section query_execution.
Import Data_Base_Manager.
Context {P : Platform} {W Conn Cur : Type} {D : Driver W Conn Cur}.
Implicit Types (s : manager W Conn) (d : DBConfig).

(** The comprehension [[desc[0] for desc in cursor.description]]. *)
Lemma map_m_first_items (descs : list row) (columns : list pyval) (w : W) :
  Forall2 (fun desc name => desc !! 0%nat = Some name) descs columns ->
  map_m (fun desc => lift (py_index desc 0)) descs w = (w, Returned columns).
Proof.
  induction 1 as [|desc name descs columns Hd _ IH]; [done|].
  simpl map_m. unfold bind, lift, py_index in *. by rewrite Hd, IH.
Qed.

(** Leaving the [with] block without an exception does not depend on the
    value the body returned. *)
Lemma get_connection_exit_returned {A} d s s' (a : A) :
  get_connection_exit d (Returned tt) s = (s', Returned tt) ->
  get_connection_exit d (Returned a) s = (s', Returned a).
Proof.
  unfold get_connection_exit, get_connection_finally.
  destruct (String.eqb _ _); [|by intros [= <-]].
  destruct (dict_getitem _ _) as [[c|]|e]; [|done..].
  destruct (conn_commit c (world s)) as [w' [[]|e]]; [|done].
  by intros [= <-].
Qed.

(** When the [finally] clause raises on the way out of the [with] block,
    its exception replaces the value the body returned. *)
Lemma get_connection_exit_raised {A} d s s' (a : A) (e : exn) :
  get_connection_exit d (Returned tt) s = (s', Raised e) ->
  get_connection_exit d (Returned a) s = (s', Raised e).
Proof.
  unfold get_connection_exit, get_connection_finally.
  destruct (String.eqb _ _); [|done].
  destruct (dict_getitem _ _) as [[c|]|e']; [|by intros [= <- <-]..].
  destruct (conn_commit c (world s)) as [w' [[]|e']]; [done|].
  by intros [= <- <-].
Qed.

(** C2, as the code has it.  When the connection is yielded, the cursor
    runs the statement, has a description whose entries each hold a first
    item, and fetches [rows], and the [with] block is left without an
    exception (for SQLite: the commit on exit returns), [execute_query]
    returns [None] if [rows] is empty, and otherwise the table that holds
    [rows] and the first item of each column description. *)
Theorem execute_query_rows_and_columns (sql : string) d s s1 (conn : Conn) (cur : Cur)
    (w2 w3 w4 : W) s5 (descs : list row) (columns : list pyval) (rows : list row) :
  get_connection_enter d s = (s1, Returned (Some conn)) ->
  conn_cursor conn (world s1) = (w2, Returned cur) ->
  cursor_execute cur sql w2 = (w3, Returned tt) ->
  cursor_description cur w3 = Some descs ->
  Forall2 (fun desc name => desc !! 0%nat = Some name) descs columns ->
  cursor_fetchall cur w3 = (w4, Returned rows) ->
  get_connection_exit d (Returned tt) (set_world w4 s1) = (s5, Returned tt) ->
  execute_query sql d s =
    (s5, Returned match rows with
                  | [] => None
                  | _ :: _ => Some {| df_rows := rows; df_columns := columns |}
                  end).
Proof.
  intros He Hcur Hex Hd Hcols Hf Hexit.
  unfold execute_query, get_connection. rewrite He.
  assert (execute_query_body sql (Some conn) (world s1) =
            (w4, Returned match rows with
                          | [] => None
                          | _ :: _ => Some {| df_rows := rows; df_columns := columns |}
                          end)) as ->.
  { unfold execute_query_body. simpl cursor_of.
    rewrite (bind_returned _ _ _ _ _ Hcur).
    rewrite (bind_returned _ _ _ _ _ Hex).
    unfold bind at 1. rewrite Hd.
    rewrite (bind_returned _ _ _ _ _ (map_m_first_items descs columns w3 Hcols)).
    rewrite (bind_returned _ _ _ _ _ Hf).
    by destruct rows. }
  by rewrite (get_connection_exit_returned d _ s5 _ Hexit).
Qed.

(** The premise on the way out of the [with] block is needed: when the
    commit on exit raises, [execute_query] raises although the cursor ran
    the statement, had a description and fetched the rows. *)
Lemma execute_query_commit_raises (sql : string) d s s1 (conn : Conn) (cur : Cur)
    (w2 w3 w4 : W) s5 (descs : list row) (columns : list pyval) (rows : list row)
    (e : exn) :
  get_connection_enter d s = (s1, Returned (Some conn)) ->
  conn_cursor conn (world s1) = (w2, Returned cur) ->
  cursor_execute cur sql w2 = (w3, Returned tt) ->
  cursor_description cur w3 = Some descs ->
  Forall2 (fun desc name => desc !! 0%nat = Some name) descs columns ->
  cursor_fetchall cur w3 = (w4, Returned rows) ->
  get_connection_exit d (Returned tt) (set_world w4 s1) = (s5, Raised e) ->
  execute_query sql d s
  = (s5, Raised (Exception_ ("Query execution failed: " +:+ exn_str e))).
Proof.
  intros He Hcur Hex Hd Hcols Hf Hexit.
  unfold execute_query, get_connection. rewrite He.
  assert (execute_query_body sql (Some conn) (world s1) =
            (w4, Returned match rows with
                          | [] => None
                          | _ :: _ => Some {| df_rows := rows; df_columns := columns |}
                          end)) as ->.
  { unfold execute_query_body. simpl cursor_of.
    rewrite (bind_returned _ _ _ _ _ Hcur).
    rewrite (bind_returned _ _ _ _ _ Hex).
    unfold bind at 1. rewrite Hd.
    rewrite (bind_returned _ _ _ _ _ (map_m_first_items descs columns w3 Hcols)).
    rewrite (bind_returned _ _ _ _ _ Hf).
    by destruct rows. }
  by rewrite (get_connection_exit_raised d _ s5 _ e Hexit).
Qed.

(** A statement that leaves no description on the cursor makes
    [execute_query] raise, here for a dialect without the commit on
    exit. *)
Lemma execute_query_without_description (sql : string) d s s1 (conn : Conn) (cur : Cur)
    (w2 w3 : W) :
  db_type d <> "SQLite" ->
  get_connection_enter d s = (s1, Returned (Some conn)) ->
  conn_cursor conn (world s1) = (w2, Returned cur) ->
  cursor_execute cur sql w2 = (w3, Returned tt) ->
  cursor_description cur w3 = None ->
  execute_query sql d s =
    (set_world w3 s1,
     Raised (Exception_ "Query execution failed: Database connection failed: 'NoneType' object is not iterable")).
Proof.
  intros Ht%String.eqb_neq He Hcur Hex Hd.
  unfold execute_query, get_connection. rewrite He.
  assert (execute_query_body sql (Some conn) (world s1) =
            (w3, Raised (TypeError "'NoneType' object is not iterable"))) as ->.
  { unfold execute_query_body. simpl cursor_of.
    rewrite (bind_returned _ _ _ _ _ Hcur).
    rewrite (bind_returned _ _ _ _ _ Hex).
    unfold bind at 1. by rewrite Hd. }
  unfold get_connection_exit, get_connection_finally. by rewrite Ht.
Qed.

End query_execution.

(** ** Properties of the query generator *)

Section query_generator.
Import Query_Generator prompt_spec.

(** The template is the fixed head, the schema text and the fixed
    tail. *)
Lemma prompt_template_parts (schema : pyval) :
  _get_prompt_template schema = prompt_head +:+ py_str schema +:+ prompt_tail.
Proof. reflexivity. Qed.

Lemma generate_query_of_text (model : string -> string) (question : string)
    (schema : schema_arg) (v : pyval) :
  match schema with
  | SchemaDict d => default (VStr "") (d !! "schema")
  | SchemaValue x => x
  end = v ->
  generate_query model question schema = model (prompt (py_str v) question).
Proof.
  intros Hv. unfold generate_query. rewrite Hv, prompt_template_parts.
  f_equal. unfold prompt. by rewrite !append_assoc.
Qed.

(** C4.  [generate_query] returns what the model answers to the fixed
    template with the schema text in it, followed by a blank line,
    [User Question: ] and the question.  The schema text is the [schema]
    field of a dictionary and the argument itself otherwise; for a
    dictionary without that field it is empty. *)
Theorem generate_query_prompt (model : string -> string) (question : string) :
  (forall (d : dict) (v : pyval),
     generate_query model question (SchemaDict (<["schema" := v]> d))
     = model (prompt (py_str v) question))
  /\ (forall v : pyval,
        generate_query model question (SchemaValue v)
        = model (prompt (py_str v) question))
  /\ (forall d : dict,
        generate_query model question (SchemaDict (delete "schema" d))
        = model (prompt "" question)).
Proof.
  repeat split.
  - intros d v. apply generate_query_of_text. by rewrite lookup_insert_eq.
  - intros v. by apply generate_query_of_text.
  - intros d. apply (generate_query_of_text _ _ _ (VStr "")).
    by rewrite lookup_delete_eq.
Qed.

End query_generator.

(** ** Properties of the PostgreSQL schema text *)

Section postgres_schema.
Import Data_Base_Manager postgres_spec.
Context {W Conn Cur : Type} {D : Driver W Conn Cur}.

(** *** Lists of names *)

Lemma filter_twice {A} (f : A -> bool) (l : list A) :
  List.filter f (List.filter f l) = List.filter f l.
Proof.
  induction l as [|x l IH]; [done|]. simpl.
  destruct (f x) eqn:Hx; simpl; [rewrite Hx|]; by rewrite ?IH.
Qed.

Lemma filter_all {A} (f : A -> bool) (l : list A) :
  Forall (fun x => f x = true) l -> List.filter f l = l.
Proof. induction 1 as [|x l Hx _ IH]; [done|]. simpl. by rewrite Hx, IH. Qed.

Lemma filter_none {A} (f : A -> bool) (l : list A) :
  Forall (fun x => f x = false) l -> List.filter f l = [].
Proof. induction 1 as [|x l Hx _ IH]; [done|]. simpl. by rewrite Hx, IH. Qed.

Lemma distinct_subset (names : list string) (n : string) :
  n ∈ distinct names -> n ∈ names.
Proof.
  induction names as [|m names IH]; [done|]. simpl.
  intros [->|Hn]%elem_of_cons; [left|right].
  apply IH. apply list_elem_of_In, List.filter_In in Hn as [Hn _].
  by apply list_elem_of_In.
Qed.

Lemma distinct_without (names : list string) (t : string) :
  t ∉ names ->
  List.filter (fun m => negb (String.eqb m t)) (distinct names) = distinct names.
Proof.
  intros Ht. apply filter_all, Forall_forall. intros m Hm%distinct_subset.
  apply negb_true_iff, String.eqb_neq. by intros ->.
Qed.

(** *** The loop *)

(** The line the loop writes for a catalog row is the specified one. *)
Lemma postgres_row_same_table (parts : list string) (t : string)
    (details : list string) (r : catalog_row) (w : W) :
  table_name r = t ->
  postgres_row (parts, VStr t, details) (tuple r) w
  = (w, Returned (parts, VStr t, details ++ [column_line r])).
Proof.
  intros <-. unfold postgres_row, tuple, column_line. cbn [py_eq].
  rewrite String.eqb_refl. cbn [negb].
  by destruct (default r) as [[|a dflt]|].
Qed.

Lemma postgres_row_next_table (parts : list string) (current : pyval)
    (details : list string) (r : catalog_row) (w : W) :
  py_eq current (VStr (table_name r)) = false ->
  postgres_row (parts, current, details) (tuple r) w
  = (w, Returned ((if is_not_none current
                   then parts ++ [table_schema current details]
                   else parts),
                  VStr (table_name r), [column_line r])).
Proof.
  intros Hne. unfold postgres_row, tuple, column_line. rewrite Hne. cbn [negb].
  by destruct (default r) as [[|a dflt]|].
Qed.

(** Whatever the order of the rows, the loop closes a section at every
    change of table name. *)
Lemma postgres_loop_runs (rows : list catalog_row) (parts : list string)
    (t : string) (acc : list catalog_row) (w : W) :
  exists parts' t' acc',
    for_each postgres_row (map tuple rows) (parts, VStr t, map column_line acc) w
    = (w, Returned (parts', VStr t', map column_line acc'))
    /\ parts' ++ [run_section (t', acc')] = parts ++ map run_section (runs_from t acc rows).
Proof.
  revert parts t acc.
  induction rows as [|r rows IH]; intros parts t acc.
  { exists parts, t, acc. by split. }
  cbn [List.map for_each runs_from].
  destruct (String.eqb (table_name r) t) eqn:Heq.
  - apply String.eqb_eq in Heq.
    destruct (IH parts t (acc ++ [r])) as (parts' & t' & acc' & Hloop & Hparts).
    exists parts', t', acc'. split; [|done].
    unfold bind. rewrite (postgres_row_same_table _ _ _ _ _ Heq).
    by rewrite map_app in Hloop.
  - destruct (IH (parts ++ [run_section (t, acc)]) (table_name r) [r])
      as (parts' & t' & acc' & Hloop & Hparts).
    exists parts', t', acc'. split.
    + unfold bind. rewrite postgres_row_next_table.
      * exact Hloop.
      * cbn [py_eq]. by rewrite String.eqb_sym.
    + rewrite Hparts. simpl. by rewrite <- app_assoc.
Qed.

(** *** Sorted rows *)

(** On rows sorted by table name, the runs are the distinct tables, each
    with all its rows. *)
Lemma runs_from_sorted (le : string -> string -> Prop) (rows : list catalog_row) :
  (forall a b, le a b -> le b a -> a = b) ->
  sorted_by_table le rows ->
  forall (t : string) (acc : list catalog_row),
    Forall (fun r => table_name r = t) acc ->
    Forall (fun r => le t (table_name r)) rows ->
    runs_from t acc rows
    = map (fun t' => (t', rows_of t' (acc ++ rows))) (distinct (t :: map table_name rows)).
Proof.
  intros Hanti Hsorted.
  induction Hsorted as [|r rows Hsorted IH Hr]; intros t acc Hacc Hle.
  { simpl. rewrite app_nil_r. unfold rows_of. rewrite filter_all; [done|].
    eapply Forall_impl; [exact Hacc|]. intros r ->. apply String.eqb_refl. }
  apply Forall_cons_1 in Hle as [Hle_r Hle].
  simpl runs_from. destruct (String.eqb (table_name r) t) eqn:Heq.
  - apply String.eqb_eq in Heq. rewrite IH.
    + rewrite <- app_assoc. simpl. rewrite Heq, String.eqb_refl. simpl.
      by rewrite filter_twice.
    + apply Forall_app. split; [done|]. by constructor.
    + by rewrite <- Heq.
  - apply String.eqb_neq in Heq.
    assert (t ∉ map table_name (r :: rows)) as Hfresh.
    { intros [Hin|Hin]%elem_of_cons; [congruence|].
      apply list_elem_of_fmap in Hin as (x & Hx & Hin).
      rewrite Forall_forall in Hr.
      apply Heq, Hanti; [|done]. rewrite Hx. by apply Hr. }
    rewrite IH; [|by repeat constructor|done].
    change (distinct (t :: map table_name (r :: rows)))
      with (t :: List.filter (fun m => negb (String.eqb m t))
                   (distinct (map table_name (r :: rows)))).
    rewrite (distinct_without _ _ Hfresh), map_cons.
    change (table_name r :: map table_name rows) with (map table_name (r :: rows)).
    assert (forall x, x ∈ map table_name (r :: rows) ->
              rows_of x (acc ++ r :: rows) = rows_of x ([r] ++ rows)) as Hrows.
    { intros x Hx. unfold rows_of. rewrite List.filter_app.
      rewrite (filter_none _ acc); [done|].
      eapply Forall_impl; [exact Hacc|]. intros y ->.
      apply String.eqb_neq. by intros ->. }
    f_equal.
    + f_equal. symmetry. unfold rows_of. rewrite List.filter_app.
      rewrite (filter_none _ (r :: rows)).
      * rewrite app_nil_r. apply filter_all.
        eapply Forall_impl; [exact Hacc|]. intros y ->. apply String.eqb_refl.
      * apply Forall_forall. intros y Hy. apply String.eqb_neq.
        intros Hyt. apply Hfresh. rewrite <- Hyt.
        by apply (list_elem_of_fmap_2 table_name).
    + apply map_ext_in. intros x Hx%list_elem_of_In%distinct_subset.
      by rewrite Hrows.
Qed.

(** C5.  On catalog rows sorted by table name, for any order on names,
    [_get_postgres_schema] returns the text with one section per distinct
    table, in order of first appearance, each listing the rows of its
    table in input order; the line of a column holds its name, its data
    type, [NULL] or [NOT NULL] as the nullable flag is [YES] or not, and
    a [DEFAULT] clause exactly when the default is not empty. *)
Theorem postgres_schema_sections (le : string -> string -> Prop) (cursor : Cur)
    (w w1 w2 : W) (rows : list catalog_row) :
  (forall a b, le a b -> le b a -> a = b) ->
  cursor_execute cursor postgres_columns_sql w = (w1, Returned tt) ->
  cursor_fetchall cursor w1 = (w2, Returned (map tuple rows)) ->
  sorted_by_table le rows ->
  _get_postgres_schema cursor w = (w2, Returned (schema_text rows)).
Proof.
  intros Hanti Hex Hfetch Hsorted. unfold _get_postgres_schema.
  rewrite (bind_returned _ _ _ _ _ Hex), (bind_returned _ _ _ _ _ Hfetch).
  destruct rows as [|r rows]; [done|].
  cbn [List.map for_each]. unfold bind at 1 2.
  rewrite postgres_row_next_table by done. cbn [is_not_none].
  destruct (postgres_loop_runs rows [] (table_name r) [r] w2)
    as (parts' & t' & acc' & Hloop & Hparts).
  simpl map in Hloop. rewrite Hloop. cbn [is_not_none]. unfold ret.
  do 2 f_equal. unfold schema_text.
  change (table_schema (VStr t') (map column_line acc')) with (run_section (t', acc')).
  rewrite Hparts. simpl app.
  inversion Hsorted as [|? ? Hs Hr]; subst.
  rewrite (runs_from_sorted le rows Hanti Hs (table_name r) [r]);
    [|by repeat constructor|done].
  rewrite map_map. simpl. do 2 f_equal.
Qed.

End postgres_schema.

(** ** Properties of the two SQLite schema inspectors *)

Section sqlite_schema.
Import sqlite3_model.
Context {P : Platform}.
Variables (can_open : string -> bool) (read_bare : string -> option string)
  (cat : catalog).

Let engine : Driver world string string := driver can_open read_bare cat.

(** *** The statements *)

Lemma eqb_append_longer (x suf : string) (a : ascii) :
  String.eqb (String a x +:+ suf) suf = false.
Proof.
  apply String.eqb_neq. intros Heq.
  apply (f_equal String.length) in Heq. rewrite append_length in Heq.
  simpl in Heq. lia.
Qed.

Lemma strip_suffix_app (x suf : string) : strip_suffix suf (x +:+ suf) = Some x.
Proof.
  induction x as [|a x IH].
  - destruct suf; simpl; [done|]. by rewrite Ascii.eqb_refl, String.eqb_refl.
  - change (strip_suffix suf (String a x +:+ suf))
      with (if String.eqb (String a x +:+ suf) suf then Some EmptyString
            else String a <$> strip_suffix suf (x +:+ suf)).
    by rewrite eqb_append_longer, IH.
Qed.

Lemma answer_table_info_quoted (name : string) :
  has_quote name = false ->
  answer read_bare cat ("PRAGMA table_info('" +:+ name +:+ "');")
  = Returned (table_info_names, table_info cat name).
Proof.
  intros Hq. unfold answer.
  change (String.eqb ("PRAGMA table_info('" +:+ name +:+ "');") _) with false.
  cbv iota.
  change (String.eqb ("PRAGMA table_info('" +:+ name +:+ "');") _) with false.
  cbv iota. unfold pragma_argument.
  change (strip_prefix "PRAGMA table_info(" ("PRAGMA table_info('" +:+ name +:+ "');"))
    with (Some ("'" +:+ name +:+ "');")).
  replace ("'" +:+ name +:+ "');") with (("'" +:+ name +:+ "'") +:+ ");")
    by (by rewrite !append_assoc).
  rewrite strip_suffix_app.
  unfold string_literal.
  change (strip_prefix "'" ("'" +:+ name +:+ "'")) with (Some (name +:+ "'")).
  cbv iota beta. by rewrite strip_suffix_app, Hq.
Qed.

(** A text without a single quote is no string literal. *)
Lemma string_literal_bare (name : string) :
  has_quote name = false -> string_literal name = None.
Proof.
  destruct name as [|a name]; [done|]. simpl.
  intros [Ha _]%orb_false_iff. unfold string_literal.
  change (strip_prefix "'" (String a name))
    with (if Ascii.eqb "'" a then Some name else None).
  by rewrite Ascii.eqb_sym, Ha.
Qed.

(** An argument without a single quote names the table the tokenizer
    reads it as. *)
Lemma answer_table_info_bare (arg name : string) :
  has_quote arg = false ->
  read_bare arg = Some name ->
  answer read_bare cat ("PRAGMA table_info(" +:+ arg +:+ ");")
  = Returned (table_info_names, table_info cat name).
Proof.
  intros Hq Hb. unfold answer.
  change (String.eqb ("PRAGMA table_info(" +:+ arg +:+ ");") _) with false.
  cbv iota.
  change (String.eqb ("PRAGMA table_info(" +:+ arg +:+ ");") _) with false.
  cbv iota. unfold pragma_argument.
  change (strip_prefix "PRAGMA table_info(" ("PRAGMA table_info(" +:+ arg +:+ ");"))
    with (Some (arg +:+ ");")).
  cbv iota beta. by rewrite strip_suffix_app, (string_literal_bare arg Hq), Hb.
Qed.

(** *** The cursor *)

Lemma execute_answer (cursor sql : string) (w : world) (names : list string)
    (rows : list row) :
  answer read_bare cat sql = Returned (names, rows) ->
  cursor_execute (Driver:=engine) cursor sql w
  = ({| pending := rows; description := Some (map describe names) |}, Returned tt).
Proof. intros Ha. simpl. by rewrite Ha. Qed.

Lemma fetchall_pending (cursor : string) (w : world) :
  cursor_fetchall (Driver:=engine) cursor w
  = ({| pending := []; description := description w |}, Returned (pending w)).
Proof. done. Qed.

(** The column lines of the rows of [PRAGMA table_info]. *)
Lemma sqlite_column_table_info (cols : list column) (k : nat) (w : world) :
  map_m (Data_Base_Manager.sqlite_column (W:=world))
    (imap (fun i => table_info_row (k + i)) cols) w
  = (w, Returned (map column_line cols)).
Proof.
  revert k. induction cols as [|c cols IH]; intros k; [done|].
  simpl imap. simpl map_m. unfold bind at 1.
  change (Data_Base_Manager.sqlite_column (table_info_row (k + 0) c) w)
    with (w, Returned (column_line c)).
  cbv iota beta. unfold bind at 1.
  rewrite (imap_ext _ (fun i => table_info_row (S k + i))).
  - by rewrite IH.
  - intros i x _. simpl. f_equal. lia.
Qed.

Lemma sqlite_column_details (name : string) (w : world) :
  map_m (Data_Base_Manager.sqlite_column (W:=world)) (table_info cat name) w
  = (w, Returned (map column_line (columns_of cat name))).
Proof. apply (sqlite_column_table_info _ 0). Qed.

(** *** The loops *)

(** One iteration of each loop, on a table whose name holds no quote and,
    for the loop of [fast_api.py], is read unquoted as itself. *)
Lemma sqlite_table_quoted (parts : list string) (name cursor : string) (w : world) :
  has_quote name = false ->
  Data_Base_Manager.sqlite_table (D:=engine) cursor parts [VStr name] w
  = (after_table_info, Returned (parts ++ [table_section cat name])).
Proof.
  intros Hq. unfold Data_Base_Manager.sqlite_table.
  unfold bind at 1. cbn [lift py_index lookup list_lookup py_str].
  rewrite (bind_returned _ _ _ _ _
             (execute_answer cursor _ w _ _ (answer_table_info_quoted name Hq))).
  rewrite (bind_returned _ _ _ _ _ (fetchall_pending cursor _)).
  cbn [pending description].
  by rewrite (bind_returned _ _ _ _ _ (sqlite_column_details name _)).
Qed.

Lemma format_table_schema_sqlite (name : string) (w : world) :
  fast_api._format_table_schema (VStr name) (table_info cat name) "sqlite" w
  = (w, Returned (table_section cat name)).
Proof.
  unfold fast_api._format_table_schema.
  change (String.eqb "sqlite" "sqlite") with true. cbv iota.
  change (map_m _ (table_info cat name))
    with (map_m (Data_Base_Manager.sqlite_column (W:=world)) (table_info cat name)).
  by rewrite (bind_returned _ _ _ _ _ (sqlite_column_details name w)).
Qed.

Lemma sqlite_table_bare (schema : list string) (name cursor : string) (w : world) :
  has_quote name = false ->
  read_bare name = Some name ->
  fast_api.sqlite_table (D:=engine) cursor schema [VStr name] w
  = (after_table_info, Returned (schema ++ [table_section cat name])).
Proof.
  intros Hq Hb. unfold fast_api.sqlite_table.
  unfold bind at 1. cbn [lift py_index lookup list_lookup py_str].
  rewrite (bind_returned _ _ _ _ _
             (execute_answer cursor _ w _ _ (answer_table_info_bare name name Hq Hb))).
  rewrite (bind_returned _ _ _ _ _ (fetchall_pending cursor _)).
  cbn [pending description].
  by rewrite (bind_returned _ _ _ _ _ (format_table_schema_sqlite name _)).
Qed.

(** The world a loop over [tables] ends in, when it starts in [w]. *)
Lemma for_each_sqlite_table_quoted (cursor : string) (tables : list table)
    (parts : list string) (w : world) :
  Forall (fun t => has_quote (tbl_name t) = false) tables ->
  for_each (Data_Base_Manager.sqlite_table (D:=engine) cursor)
    (map (fun t => [VStr (tbl_name t)]) tables) parts w
  = (match tables with [] => w | _ :: _ => after_table_info end,
     Returned (parts ++ map (fun t => table_section cat (tbl_name t)) tables)).
Proof.
  intros Hall. revert parts w.
  induction Hall as [|t tables Ht _ IH]; intros parts w.
  { simpl. by rewrite app_nil_r. }
  cbn [List.map for_each].
  rewrite (bind_returned _ _ _ _ _ (sqlite_table_quoted parts _ cursor w Ht)).
  rewrite IH, <- app_assoc. by destruct tables.
Qed.

Lemma for_each_sqlite_table_bare (cursor : string) (tables : list table)
    (schema : list string) (w : world) :
  Forall (fun t => has_quote (tbl_name t) = false
                   /\ read_bare (tbl_name t) = Some (tbl_name t)) tables ->
  for_each (fast_api.sqlite_table (D:=engine) cursor)
    (map (fun t => [VStr (tbl_name t)]) tables) schema w
  = (match tables with [] => w | _ :: _ => after_table_info end,
     Returned (schema ++ map (fun t => table_section cat (tbl_name t)) tables)).
Proof.
  intros Hall. revert schema w.
  induction Hall as [|t tables [Hq Hb] _ IH]; intros schema w.
  { simpl. by rewrite app_nil_r. }
  cbn [List.map for_each].
  rewrite (bind_returned _ _ _ _ _ (sqlite_table_bare schema _ cursor w Hq Hb)).
  rewrite IH, <- app_assoc. by destruct tables.
Qed.

(** C6, as the code has it.  On a catalog where no table name matches
    [sqlite_%] and every table name holds no single quote and, written
    unquoted as the argument of the pragma, is read by the tokenizer as
    that same name, [_get_sqlite_schema] of [Data_Base_Manager.py] and the
    SQLite branch of [_get_schema_details] of [fast_api.py] return the
    same text and leave the cursor in the same state: one section per
    table of the catalog, in catalog order, with one line per column.
    The reading [read_bare] is any function: the tokenizer is not in the
    repository, and a name it reads as another name (between brackets or
    double quotes, after a blank) is outside the premise. *)
Theorem sqlite_inspectors_agree (cursor : string) (w : world) :
  Forall (fun t => like_sqlite_ (tbl_name t) = false
                   /\ has_quote (tbl_name t) = false
                   /\ read_bare (tbl_name t) = Some (tbl_name t)) cat ->
  Data_Base_Manager._get_sqlite_schema (D:=engine) cursor w
  = fast_api._get_schema_details (D:=engine) cursor "SQLite" w
  /\ (Data_Base_Manager._get_sqlite_schema (D:=engine) cursor w).2
     = Returned (schema_text cat).
Proof.
  intros Hall.
  assert (Data_Base_Manager._get_sqlite_schema (D:=engine) cursor w
          = (match cat with [] => after_select_name | _ :: _ => after_table_info end,
             Returned (schema_text cat))) as Ha.
  { unfold Data_Base_Manager._get_sqlite_schema.
    rewrite (bind_returned _ _ _ _ _
               (execute_answer cursor Data_Base_Manager.sqlite_tables_sql w _ _ eq_refl)).
    rewrite (bind_returned _ _ _ _ _ (fetchall_pending cursor _)).
    cbn [pending description].
    rewrite filter_all.
    - rewrite (bind_returned _ _ _ _ _
                 (for_each_sqlite_table_quoted cursor cat [] _
                    (Forall_impl _ _ _ Hall (fun t H => proj1 (proj2 H))))).
      by destruct cat.
    - eapply Forall_impl; [exact Hall|]. intros t (Hl & _). by rewrite Hl. }
  split; [|by rewrite Ha]. rewrite Ha.
  unfold fast_api._get_schema_details, try_except.
  change (String.eqb "SQLite" "SQLite") with true. cbv iota.
  assert ((cursor_execute (Driver:=engine) cursor
             "SELECT name FROM sqlite_master WHERE type='table';" ;;;
           tables <- cursor_fetchall (Driver:=engine) cursor ;;
           for_each (fast_api.sqlite_table (D:=engine) cursor) tables []) w
          = (match cat with [] => after_select_name | _ :: _ => after_table_info end,
             Returned (map (fun t => table_section cat (tbl_name t)) cat))) as Hb.
  { rewrite (bind_returned _ _ _ _ _
               (execute_answer cursor
                  "SELECT name FROM sqlite_master WHERE type='table';" w _ _ eq_refl)).
    rewrite (bind_returned _ _ _ _ _ (fetchall_pending cursor _)).
    cbn [pending description].
    rewrite (for_each_sqlite_table_bare cursor cat [] _
               (Forall_impl _ _ _ Hall (fun t H => proj2 H))).
    by destruct cat. }
  by rewrite (bind_returned _ _ _ _ _ Hb).
Qed.

End sqlite_schema.

(** ** The sample databases *)

Section samples.
Import Data_Base_Manager sqlite3_model examples.

#[local] Existing Instance platform.


(** On [app.db]: a failing schema request for another target keeps the
    cached connection. *)
Lemma connections_never_evicted_witness :
  connections (get_schema (D:=app) oracle_db connected).1
    !! "SQLite_app.db_None" = Some (Some "app.db").
Proof.
  apply (connections_never_evicted (D:=app) connected "SQLite_app.db_None"
           (Some "app.db") eq_refl).
Defined.

(** On a file that cannot be opened, the caller sees the [KeyError]. *)
Lemma sqlite_connection_error_masked_witness :
  get_connection_enter (D:=app) missing_db (init w0)
  = (init w0, Raised (KeyError "SQLite_/nowhere/app.db_None")).
Proof.
  exact (proj1 (sqlite_connection_error_masked (D:=app) (init w0) missing_db w0
                  (ConnectionError "Failed to connect to database: unable to open database file")
                  eq_refl eq_refl eq_refl)).
Defined.

(** On [app.db]: credentials and port do not matter once the target is
    cached. *)
Lemma cached_connection_ignores_credentials_witness :
  get_connection_enter (D:=app) app_db_as_admin connected
  = (connected, Returned (Some "app.db"))
  /\ get_connection_enter (D:=app) app_db connected
     = get_connection_enter (D:=app) app_db_as_admin connected.
Proof.
  exact (cached_connection_ignores_credentials (D:=app) connected app_db app_db_as_admin
           (Some "app.db") eq_refl eq_refl eq_refl eq_refl).
Defined.

(** On the dialect [Oracle]: the message is about [cursor], not about the
    dialect. *)
Lemma get_schema_unsupported_type_witness :
  (get_schema (D:=app) oracle_db (init w0)).2
  = Returned (<["success" := VBool false]>
                (<["message" :=
                     VStr "Failed to get schema: Database connection failed: 'NoneType' object has no attribute 'cursor'"]> ∅)).
Proof.
  rewrite (get_schema_unsupported_type (D:=app) oracle_db (init w0));
    [reflexivity|discriminate..|reflexivity].
Defined.

(** On the dialect [Oracle]: status 500, and the text of the nested
    exception with status 400 in the detail. *)
Lemma get_schema_handler_failure_is_500_witness :
  (api.get_schema (D:=app) oracle_db (init w0)).2
  = Raised (HTTPException 500
              (VStr "Failed to retrieve schema: 400: Failed to get schema: Database connection failed: 'NoneType' object has no attribute 'cursor'")).
Proof.
  rewrite (get_schema_handler_failure_is_500 (D:=app) oracle_db (init w0)
             (store (conn_key oracle_db) None w0 (init w0))
             (<["success" := VBool false]>
                (<["message" :=
                     VStr "Failed to get schema: Database connection failed: 'NoneType' object has no attribute 'cursor'"]> ∅))
             (VBool false)
             (VStr "Failed to get schema: Database connection failed: 'NoneType' object has no attribute 'cursor'"));
    reflexivity.
Defined.

(** On [app.db]: the names of the tables, as a table with one column. *)
Lemma execute_query_rows_and_columns_witness :
  (execute_query (D:=app) "SELECT name FROM sqlite_master WHERE type='table';"
     app_db (init w0)).2
  = Returned (Some {| df_rows := [[VStr "users"]]; df_columns := [VStr "name"] |}).
Proof.
  rewrite (execute_query_rows_and_columns (D:=app)
             "SELECT name FROM sqlite_master WHERE type='table';" app_db (init w0)
             (store (conn_key app_db) (Some "app.db") w0 (init w0)) "app.db" "app.db"
             w0 {| pending := [[VStr "users"]]; description := Some [describe "name"] |}
             after_select_name
             (store (conn_key app_db) (Some "app.db") after_select_name (init w0))
             [describe "name"] [VStr "name"] [[VStr "users"]]);
    [reflexivity..| |reflexivity|reflexivity].
  repeat constructor.
Defined.

(** On a database without tables the cursor runs the statement, describes
    one column and fetches no row, and [execute_query] returns [None],
    which holds neither rows nor column names. *)
Lemma execute_query_no_rows_counterexample :
  let sql := "SELECT name FROM sqlite_master WHERE type='table';" in
  cursor_execute (Driver:=empty_db) "app.db" sql w0
  = ({| pending := []; description := Some [describe "name"] |}, Returned tt)
  /\ cursor_fetchall (Driver:=empty_db) "app.db"
       {| pending := []; description := Some [describe "name"] |}
     = (after_select_name, Returned [])
  /\ (execute_query (D:=empty_db) sql app_db (init w0)).2 = Returned None
  /\ (execute_query (D:=empty_db) sql app_db (init w0)).2
     <> Returned (Some {| df_rows := []; df_columns := [VStr "name"] |}).
Proof. repeat split. discriminate. Qed.

(** On two tables: [orders] has a default and a nullable column, the
    empty default of [users] writes no clause. *)
Lemma postgres_schema_sections_witness :
  _get_postgres_schema (D:=postgres (map postgres_spec.tuple catalog_rows)) tt tt
  = (tt, Returned (lines [ "";
                           "  Table: orders";
                           "    - id (integer NOT NULL DEFAULT nextval('orders_id_seq'::regclass))";
                           "    - note (text NULL)";
                           "";
                           "  Table: users";
                           "    - name (text NOT NULL)" ])).
Proof.
  rewrite (postgres_schema_sections
             (D:=postgres (map postgres_spec.tuple catalog_rows))
             String.le tt tt tt tt catalog_rows);
    [reflexivity| |reflexivity|reflexivity|].
  - intros a b. apply (anti_symm String.le).
  - unfold postgres_spec.sorted_by_table, catalog_rows.
    repeat (constructor; simpl); exact I.
Defined.

(** On a database with the table [users] only, both inspectors return the
    same text. *)
Lemma sqlite_inspectors_agree_witness :
  _get_sqlite_schema (D:=app) "app.db" w0
  = fast_api._get_schema_details (D:=app) "app.db" "SQLite" w0
  /\ (_get_sqlite_schema (D:=app) "app.db" w0).2
     = Returned (lines [ ""; "  Table: users"; "    - id (INTEGER)"; "    - name (TEXT)" ]).
Proof.
  apply (sqlite_inspectors_agree can_open read_unquoted [users] "app.db" w0).
  repeat constructor.
Defined.

(** On a database with an [AUTOINCREMENT] column the catalog is the same
    for both inspectors, and only the one of [fast_api.py] lists
    [sqlite_sequence]. *)
Lemma sqlite_inspectors_differ_counterexample :
  (_get_sqlite_schema (D:=app_autoincrement) "app.db" w0).2
  = Returned (lines [ ""; "  Table: users"; "    - id (INTEGER)"; "    - name (TEXT)" ])
  /\ (fast_api._get_schema_details (D:=app_autoincrement) "app.db" "SQLite" w0).2
     = Returned (lines [ ""; "  Table: users"; "    - id (INTEGER)"; "    - name (TEXT)";
                         ""; "  Table: sqlite_sequence"; "    - name ()"; "    - seq ()" ])
  /\ (_get_sqlite_schema (D:=app_autoincrement) "app.db" w0).2
     <> (fast_api._get_schema_details (D:=app_autoincrement) "app.db" "SQLite" w0).2.
Proof. repeat split. discriminate. Qed.

(** A table named [t] between brackets has no single quote in its name
    and does not match [sqlite_%], and the unquoted argument is read as
    [t], a table the database does not have: the inspector of
    [Data_Base_Manager.py] writes the column of the table, the one of
    [fast_api.py] an empty section. *)
Lemma sqlite_inspectors_differ_on_bracketed_name :
  like_sqlite_ "[t]" = false
  /\ has_quote "[t]" = false
  /\ read_unquoted "[t]" = Some "t"
  /\ (_get_sqlite_schema (D:=app_bracketed) "app.db" w0).2
     = Returned (lines [ ""; "  Table: [t]"; "    - a (TEXT)" ])
  /\ (fast_api._get_schema_details (D:=app_bracketed) "app.db" "SQLite" w0).2
     = Returned (lines [ ""; "  Table: [t]"; "" ]).
Proof. by repeat split. Qed.

End samples.

(** * Further properties *)

(** ** The monad, continued *)

Lemma bind_returned_inv {W A B} (m : M W A) (k : A -> M W B) w w' b :
  bind m k w = (w', Returned b) ->
  exists w1 a, m w = (w1, Returned a) /\ k a w1 = (w', Returned b).
Proof.
  unfold bind. destruct (m w) as [w1 [a|e]]; [|done]. intros Hk. by exists w1, a.
Qed.

Lemma bind_raised {W A B} (m : M W A) (k : A -> M W B) w w' e :
  m w = (w', Raised e) -> bind m k w = (w', Raised e).
Proof. intros E. unfold bind. by rewrite E. Qed.

Lemma for_each_app {W A S} (body : S -> A -> M W S) (l1 l2 : list A) (acc : S) (w : W) :
  for_each body (l1 ++ l2) acc w
  = bind (for_each body l1 acc) (fun acc' => for_each body l2 acc') w.
Proof.
  revert acc w. induction l1 as [|x l1 IH]; intros acc w; [done|].
  simpl. unfold bind.
  destruct (body acc x w) as [w1 [acc1|e]]; [|done]. exact (IH acc1 w1).
Qed.

(** ** The connection manager, continued *)

Section connection_manager_more.
Import Data_Base_Manager.
Context {P : Platform} {W Conn Cur : Type} {D : Driver W Conn Cur}.
Implicit Types (s : manager W Conn) (d : DBConfig).

(** A [with] block returns a value only when its body returned it. *)
Lemma get_connection_returned {A} d (body : option Conn -> M W A) s s' (a : A) :
  get_connection d body s = (s', Returned a) ->
  exists s1 conn w1,
    get_connection_enter d s = (s1, Returned conn)
    /\ body conn (world s1) = (w1, Returned a).
Proof.
  unfold get_connection.
  destruct (get_connection_enter d s) as [s1 [conn|e]]; [|done].
  destruct (body conn (world s1)) as [w1 [a0|e]] eqn:Hb; simpl.
  - intros Hf. exists s1, conn, w1. split; [done|]. do 2 f_equal.
    unfold get_connection_finally in Hf.
    destruct (String.eqb _ _); [|congruence].
    destruct (dict_getitem _ _) as [[c|]|e]; [|done..].
    destruct (conn_commit c _) as [w2 [[]|e]]; [|done]. congruence.
  - intros Hf.
    destruct (finally_raised (A:=A) d (get_connection_except e) (set_world w1 s1))
      as [e' He'].
    rewrite Hf in He'. done.
Qed.

(** X1.  The key is the three parts joined by [_], so it does not tell
    where the database name ends: the database [a_b] on host [h] and the
    database [a] on host [b_h] share a key, and a request for the second
    is handed the connection cached for the first. *)
Theorem conn_key_collision_on_underscore s (t a b h : string)
    (port user password port' user' password' : option string) (c : option Conn) :
  let d := {| db_type := t; db_host := Some h; db_port := port;
              db_name := a +:+ "_" +:+ b; db_user := user;
              db_password := password |} in
  let d' := {| db_type := t; db_host := Some (b +:+ "_" +:+ h); db_port := port';
               db_name := a; db_user := user'; db_password := password' |} in
  connections s !! conn_key d = Some c ->
  db_name d <> db_name d' /\ get_connection_enter d' s = (s, Returned c).
Proof.
  intros d d' Hc. split.
  - simpl. intros Heq. apply (f_equal String.length) in Heq.
    rewrite append_length in Heq. simpl in Heq. lia.
  - apply get_connection_enter_cached. rewrite <- Hc. f_equal.
    unfold conn_key, d, d'. simpl. by rewrite !append_assoc.
Qed.

(** X2.  A request without a host and a request whose host is the text
    [None] share a key: the second is handed the connection cached for
    the first. *)
Theorem conn_key_collision_on_none s d (user' password' port' : option string)
    (c : option Conn) :
  db_host d = None ->
  connections s !! conn_key d = Some c ->
  get_connection_enter
    {| db_type := db_type d; db_host := Some "None"; db_port := port';
       db_name := db_name d; db_user := user'; db_password := password' |} s
  = (s, Returned c).
Proof.
  intros Hh Hc. apply get_connection_enter_cached. rewrite <- Hc.
  unfold conn_key. simpl. by rewrite Hh.
Qed.

(** X3.  For a dialect other than SQLite, whatever the body of the [with]
    block raises reaches the caller as a [ConnectionError] whose text is
    the fixed prefix and the text of the exception, and the cache is as
    it was at the [yield]. *)
Theorem get_connection_wraps_body_error {A} d (body : option Conn -> M W A)
    s s1 (conn : option Conn) (w1 : W) (e : exn) :
  db_type d <> "SQLite" ->
  get_connection_enter d s = (s1, Returned conn) ->
  body conn (world s1) = (w1, Raised e) ->
  get_connection d body s
  = (set_world w1 s1,
     Raised (ConnectionError ("Database connection failed: " +:+ exn_str e))).
Proof.
  intros Ht%String.eqb_neq He Hb. unfold get_connection. rewrite He, Hb.
  unfold get_connection_exit, get_connection_finally. by rewrite Ht.
Qed.

(** X4.  For SQLite with a cached connection, leaving the [with] block
    commits on that connection after the body, whether the body returned
    or raised.  When the commit returns, the block gives what the body
    returned, or the [ConnectionError] made of what it raised; when the
    commit raises, its exception is what the caller sees, also after a
    body that returned. *)
Theorem sqlite_commits_on_exit {A} d (body : option Conn -> M W A) s (c : Conn)
    (w1 w2 : W) (r : outcome A) (rc : outcome unit) :
  db_type d = "SQLite" ->
  connections s !! conn_key d = Some (Some c) ->
  body (Some c) (world s) = (w1, r) ->
  conn_commit c w1 = (w2, rc) ->
  get_connection d body s
  = (set_world w2 s,
     match rc with
     | Raised e' => Raised e'
     | Returned _ =>
         match r with
         | Returned a => Returned a
         | Raised e => Raised (ConnectionError ("Database connection failed: "
                                                  +:+ exn_str e))
         end
     end).
Proof.
  intros Ht Hc Hb Hcommit. unfold get_connection.
  rewrite (get_connection_enter_cached d s _ Hc), Hb.
  unfold get_connection_exit, get_connection_finally, dict_getitem.
  destruct r as [a|e]; rewrite Ht; simpl; rewrite Hc, Hcommit; by destruct rc.
Qed.

(** X5.  A creation that raises stores nothing, for SQLite and for the
    other dialects: the operation raises, only the world has changed, and
    the next operation on the key calls the driver again and caches what
    it then returns. *)
Theorem failed_creation_is_retried {A} d (body : option Conn -> M W A) s
    (w' w'' : W) (e : exn) (c : option Conn) :
  connections s !! conn_key d = None ->
  _create_connection d (world s) = (w', Raised e) ->
  _create_connection d w' = (w'', Returned c) ->
  (exists e', get_connection d body s = (set_world w' s, Raised e'))
  /\ get_connection_enter d (get_connection d body s).1
     = (store (conn_key d) c w'' s, Returned c).
Proof.
  intros Hn Hc Hc'.
  assert (exists e', get_connection d body s = (set_world w' s, Raised e'))
    as [e' He'].
  { unfold get_connection, get_connection_enter, get_connection_try.
    rewrite Hn, Hc. unfold get_connection_finally, dict_getitem. simpl.
    destruct (String.eqb _ _); rewrite ?Hn; by eexists. }
  split; [by exists e'|]. rewrite He'. simpl.
  by rewrite (get_connection_enter_fresh d (set_world w' s) w'' c Hn Hc').
Qed.


End connection_manager_more.

(** ** The results of [get_schema] *)

Section schema_results.
Import Data_Base_Manager.
Context {P : Platform} {W Conn Cur : Type} {D : Driver W Conn Cur}.
Implicit Types (s : manager W Conn) (d : DBConfig).

Lemma get_schema_body_returned d (conn : option Conn) (w w' : W) (r : dict) :
  get_schema_body d conn w = (w', Returned r) ->
  exists text : string,
    r = <["success" := VBool true]> (<["schema" := VStr text]> ∅).
Proof.
  unfold get_schema_body.
  intros (w1 & cursor & _ & Hk)%bind_returned_inv.
  apply bind_returned_inv in Hk as (w2 & text & _ & Hret).
  exists text. unfold ret in Hret. congruence.
Qed.

(** X7.  [get_schema] never raises, and what it returns has one of two
    shapes: [success = True] with the schema text under [schema], or
    [success = False] with, under [message], the fixed prefix and the
    text of the exception.  So the lookups of [success], and of [message]
    after a failure, that the handlers make cannot fail. *)
Theorem get_schema_result_shape d s :
  exists s' (r : dict),
    get_schema d s = (s', Returned r)
    /\ ((exists text : string,
           r = <["success" := VBool true]> (<["schema" := VStr text]> ∅))
        \/ (exists e : exn,
              r = <["success" := VBool false]>
                    (<["message" := VStr ("Failed to get schema: " +:+ exn_str e)]> ∅))).
Proof.
  unfold get_schema.
  destruct (get_connection d (get_schema_body d) s) as [s' [r|e]] eqn:Hg.
  - exists s', r. split; [done|]. left.
    apply get_connection_returned in Hg as (s1 & conn & w1 & _ & Hb).
    by eapply get_schema_body_returned.
  - eexists _, _. split; [done|]. right. by exists e.
Qed.

(** X8.  The handler of [/get_schema] either returns a dictionary with
    [success = True] and the schema text, or raises an [HTTPException]
    with status 500: it never returns a failure dictionary and never
    raises another status or another exception. *)
Theorem get_schema_handler_outcomes d s :
  (exists s' (text : string),
     api.get_schema d s
     = (s', Returned (<["success" := VBool true]> (<["schema" := VStr text]> ∅))))
  \/ (exists s' (detail : pyval),
        api.get_schema d s = (s', Raised (HTTPException 500 detail))).
Proof.
  destruct (get_connection d (get_schema_body d) s) as [s' [r|e]] eqn:Hg.
  - left. pose proof Hg as Hr.
    apply get_connection_returned in Hr as (s1 & conn & w1 & _ & Hb).
    apply get_schema_body_returned in Hb as [text ->].
    exists s', text. unfold api.get_schema, try_except.
    erewrite bind_returned; [|unfold get_schema; by rewrite Hg].
    unfold lift, bind, dict_getitem. by rewrite lookup_insert_eq.
  - right. exists s'. unfold api.get_schema, try_except.
    erewrite bind_returned; [|unfold get_schema; by rewrite Hg].
    unfold lift, bind, dict_getitem. rewrite lookup_insert_eq. cbn.
    rewrite lookup_insert_ne by done. rewrite lookup_insert_eq. by eexists.
Qed.

End schema_results.

(** ** The handlers of [api.py] *)

Section api_handlers_properties.
Import Data_Base_Manager api_handlers.
Context {P : Platform} {W Conn Cur : Type} {D : Driver W Conn Cur}.
Variables (model : string -> string) (isspace : string -> bool).
Implicit Types (s : manager W Conn) (d : DBConfig).

(** Without the commit on exit, whatever [get_connection] raises was made
    by its [except] clause. *)
Lemma get_connection_raises_wrapped {A} d (body : option Conn -> M W A) s s' (e : exn) :
  db_type d <> "SQLite" ->
  get_connection d body s = (s', Raised e) ->
  exists e0, e = get_connection_except e0.
Proof.
  intros Ht%String.eqb_neq. unfold get_connection, get_connection_enter.
  destruct (get_connection_try d s) as [s1 [conn|e1]].
  - destruct (body conn (world s1)) as [w1 [a|e1]];
      unfold get_connection_exit, get_connection_finally; rewrite Ht; [done|].
    intros [= _ <-]. by eexists.
  - unfold get_connection_finally. rewrite Ht. intros [= _ <-]. by eexists.
Qed.

(** X9.  For a dialect other than SQLite, [/connect] answers with the
    success message exactly when the [try] block of [get_connection]
    yields a connection and [conn.cursor()] and [SELECT 1] on it return;
    the manager is the one the [try] block left, with the world the
    statement left.  When the [try] block raises [e] (the connection
    could not be created), or [conn.cursor()] or [SELECT 1] raise [e]
    (also on the [None] cached for an unknown dialect), it answers with
    status 503, and the detail is the prefix of the handler, the prefix of
    [get_connection] and the text of [e]. *)
Theorem connect_db_reports_503 d s :
  db_type d <> "SQLite" ->
  let failed (e : exn) :=
    HTTPException 503
      (VStr ("Database connection failed: Database connection failed: " +:+ exn_str e)) in
  connect_db d s
  = match get_connection_try d s with
    | (s1, Raised e) => (s1, Raised (failed e))
    | (s1, Returned conn) =>
        match (cursor <- cursor_of conn ;; cursor_execute cursor "SELECT 1")
                (world s1) with
        | (w1, Raised e) => (set_world w1 s1, Raised (failed e))
        | (w1, Returned _) =>
            (set_world w1 s1,
             Returned (<["success" := VBool true]>
                         (<["message" :=
                              VStr ("Successfully connected to " +:+ db_type d
                                      +:+ " database")]> ∅)))
        end
    end.
Proof.
  intros Ht%String.eqb_neq failed.
  unfold connect_db, get_connection, get_connection_enter.
  destruct (get_connection_try d s) as [s1 [conn|e]].
  - unfold bind at 1 3.
    destruct (cursor_of conn (world s1)) as [w1 [cursor|e]].
    + unfold bind.
      destruct (cursor_execute cursor "SELECT 1" w1) as [w2 [[]|e]];
        unfold get_connection_exit, get_connection_finally; by rewrite Ht.
    + unfold get_connection_exit, get_connection_finally. by rewrite Ht.
  - unfold get_connection_finally. by rewrite Ht.
Qed.

(** X10.  For SQLite, a database that cannot be opened makes [/connect]
    answer with status 500, not 503: the [KeyError] of the [finally]
    clause of [get_connection] is what the handler catches, and the
    detail is the [repr] of the key, not the message of the driver. *)
Theorem connect_db_sqlite_failure_is_500 d s (w' : W) (e : exn) :
  db_type d = "SQLite" ->
  connections s !! conn_key d = None ->
  _create_connection d (world s) = (w', Raised e) ->
  connect_db d s
  = (set_world w' s,
     Raised (HTTPException 500 (VStr ("An error occurred: " +:+ py_repr (conn_key d))))).
Proof.
  intros Ht Hn Hc.
  unfold connect_db, get_connection, get_connection_enter, get_connection_try.
  rewrite Hn, Hc. unfold get_connection_finally, dict_getitem.
  rewrite Ht. simpl. by rewrite Hn.
Qed.

Lemma schema_or_400_failure d s s' (r : dict) (success message : pyval) :
  get_schema d s = (s', Returned r) ->
  r !! "success" = Some success ->
  py_truthy success = false ->
  r !! "message" = Some message ->
  schema_or_400 d s = (s', Raised (HTTPException 400 message)).
Proof.
  intros Hg Hs Ht Hm. unfold schema_or_400.
  rewrite (bind_returned _ _ _ _ _ Hg).
  unfold lift, bind, dict_getitem. rewrite Hs, Ht. cbn. by rewrite Hm.
Qed.

Lemma schema_or_400_success d s s' (text : string) :
  get_schema d s
  = (s', Returned (<["success" := VBool true]> (<["schema" := VStr text]> ∅))) ->
  schema_or_400 d s
  = (s', Returned (<["success" := VBool true]> (<["schema" := VStr text]> ∅))).
Proof.
  intros Hg. unfold schema_or_400.
  rewrite (bind_returned _ _ _ _ _ Hg).
  unfold lift, bind, dict_getitem. by rewrite lookup_insert_eq.
Qed.

(** X11.  In [/generate_query] and [/execute_query], unlike in
    [/get_schema], a failure of [get_schema] reaches the client with
    status 400 and the message of the manager as detail.  The answer does
    not depend on the model, and the manager and the world are as
    [get_schema] left them: the statement was not executed. *)
Theorem schema_failure_is_400 (question sql_query : string) d s s' (r : dict)
    (success message : pyval) :
  get_schema d s = (s', Returned r) ->
  r !! "success" = Some success ->
  py_truthy success = false ->
  r !! "message" = Some message ->
  generate_sql model isspace question d s = (s', Raised (HTTPException 400 message))
  /\ execute_sql sql_query d s = (s', Raised (HTTPException 400 message)).
Proof.
  intros Hg Hs Ht Hm.
  pose proof (schema_or_400_failure d s s' r success message Hg Hs Ht Hm) as H400.
  split.
  - unfold generate_sql, try_except_http. by rewrite (bind_raised _ _ _ _ _ H400).
  - unfold execute_sql, try_except_http. by rewrite (bind_raised _ _ _ _ _ H400).
Qed.

(** X12.  When [get_schema] succeeds, [/generate_query] asks the model
    with the prompt made of the schema text and the question.  An answer
    that is empty or all white space gives status 400; any other answer
    is returned as it is under [sql_query], with the dialect of the
    request. *)
Theorem generate_sql_answer (question : string) d s s' (text : string) :
  get_schema d s
  = (s', Returned (<["success" := VBool true]> (<["schema" := VStr text]> ∅))) ->
  let answer := model (prompt_spec.prompt text question) in
  generate_sql model isspace question d s
  = (s', if String.eqb answer "" || isspace answer
         then Raised (HTTPException 400 (VStr "Failed to generate valid SQL query"))
         else Returned (<["success" := VBool true]>
                          (<["sql_query" := VStr answer]>
                             (<["db_type" := VStr (db_type d)]> ∅)))).
Proof.
  intros Hg answer. unfold generate_sql, try_except_http.
  rewrite (bind_returned _ _ _ _ _ (schema_or_400_success d s s' text Hg)).
  assert (Query_Generator.generate_query model question
            (Query_Generator.SchemaDict
               (<["success" := VBool true]> (<["schema" := VStr text]> ∅)))
          = answer) as ->.
  { apply (generate_query_of_text model question _ (VStr text)).
    rewrite lookup_insert_ne by done. by rewrite lookup_insert_eq. }
  by destruct (String.eqb answer "" || isspace answer).
Qed.

(** What the body of [execute_query] returns when the cursor runs the
    statement, has a description and fetches [rows]. *)
Lemma execute_query_body_fetches (sql : string) (conn : Conn) (cur : Cur)
    (w1 w2 w3 w4 : W) (descs : list row) (columns : list pyval) (rows : list row) :
  conn_cursor conn w1 = (w2, Returned cur) ->
  cursor_execute cur sql w2 = (w3, Returned tt) ->
  cursor_description cur w3 = Some descs ->
  Forall2 (fun desc name => desc !! 0%nat = Some name) descs columns ->
  cursor_fetchall cur w3 = (w4, Returned rows) ->
  execute_query_body sql (Some conn) w1
  = (w4, Returned match rows with
                  | [] => None
                  | _ :: _ => Some {| df_rows := rows; df_columns := columns |}
                  end).
Proof.
  intros Hcur Hex Hd Hcols Hf. unfold execute_query_body. simpl cursor_of.
  rewrite (bind_returned _ _ _ _ _ Hcur).
  rewrite (bind_returned _ _ _ _ _ Hex).
  unfold bind at 1. rewrite Hd.
  rewrite (bind_returned _ _ _ _ _ (map_m_first_items descs columns w3 Hcols)).
  rewrite (bind_returned _ _ _ _ _ Hf).
  by destruct rows.
Qed.

(** X13.  When the cursor runs the statement, has a description and
    fetches [rows], and the [with] block is left without an exception,
    [/execute_raw_query] answers with the statement, [row_count] equal to
    the number of rows fetched, and as [results] the records of the table
    of these rows, or the empty list when there are none. *)
Theorem execute_raw_sql_counts_rows (sql : string) d s s1 (conn : Conn) (cur : Cur)
    (w2 w3 w4 : W) s5 (descs : list row) (columns : list pyval) (rows : list row) :
  get_connection_enter d s = (s1, Returned (Some conn)) ->
  conn_cursor conn (world s1) = (w2, Returned cur) ->
  cursor_execute cur sql w2 = (w3, Returned tt) ->
  cursor_description cur w3 = Some descs ->
  Forall2 (fun desc name => desc !! 0%nat = Some name) descs columns ->
  cursor_fetchall cur w3 = (w4, Returned rows) ->
  get_connection_exit d (Returned tt) (set_world w4 s1) = (s5, Returned tt) ->
  execute_raw_sql d sql s
  = (s5, Returned {| success := true;
                     query := sql;
                     results := match rows with
                                | [] => None
                                | _ :: _ => Some {| df_rows := rows;
                                                    df_columns := columns |}
                                end;
                     row_count := length rows |}).
Proof.
  intros He Hcur Hex Hd Hcols Hf Hexit.
  unfold execute_raw_sql, try_except.
  erewrite bind_returned.
  2:{ unfold execute_query, get_connection. rewrite He.
      rewrite (execute_query_body_fetches sql conn cur _ w2 w3 w4 descs columns rows
                 Hcur Hex Hd Hcols Hf).
      by rewrite (get_connection_exit_returned d _ s5 _ Hexit). }
  unfold ret, query_response_of. by destruct rows.
Qed.

(** X14.  For a dialect other than SQLite, a statement the cursor rejects
    reaches the client of [/execute_raw_query] with status 500 and a
    detail that stacks the prefixes of the handler, of [execute_query]
    and of [get_connection] before the text of the driver: a rejected
    statement is reported as a failed connection. *)
Theorem execute_raw_sql_rejected (sql : string) d s s1 (conn : Conn) (cur : Cur)
    (w2 w3 : W) (e : exn) :
  db_type d <> "SQLite" ->
  get_connection_enter d s = (s1, Returned (Some conn)) ->
  conn_cursor conn (world s1) = (w2, Returned cur) ->
  cursor_execute cur sql w2 = (w3, Raised e) ->
  execute_raw_sql d sql s
  = (set_world w3 s1,
     Raised (HTTPException 500
               (VStr ("Raw query execution failed: Query execution failed: Database connection failed: "
                        +:+ exn_str e)))).
Proof.
  intros Ht%String.eqb_neq He Hcur Hex.
  assert (execute_query sql d s
          = (set_world w3 s1,
             Raised (Exception_ ("Query execution failed: Database connection failed: "
                                   +:+ exn_str e)))) as Hq.
  { unfold execute_query, get_connection. rewrite He.
    assert (execute_query_body sql (Some conn) (world s1) = (w3, Raised e)) as ->.
    { unfold execute_query_body. simpl cursor_of.
      rewrite (bind_returned _ _ _ _ _ Hcur). by rewrite (bind_raised _ _ _ _ _ Hex). }
    unfold get_connection_exit, get_connection_finally. by rewrite Ht. }
  unfold execute_raw_sql, try_except. by rewrite (bind_raised _ _ _ _ _ Hq).
Qed.

End api_handlers_properties.

(** ** The application of [fast_api.py] *)

Section fast_api_app_properties.
Import Data_Base_Manager.
Context {P : Platform} {W Conn Cur : Type} {D : Driver W Conn Cur}.
Variables (model : string -> string) (dict_str : dict -> string).
Implicit Types (s : manager W Conn) (d : DBConfig).

(** [get_schema] of this manager does not raise. *)
Lemma fast_api_get_schema_returns d s :
  exists s' (r : dict), fast_api.get_schema d s = (s', Returned r).
Proof.
  unfold fast_api.get_schema.
  destruct (fast_api.get_connection d _ s) as [s' [r|e]]; by eexists _, _.
Qed.

(** X15.  [/connect] of [fast_api.py] answers [Connection successful!]
    for every request and leaves the manager and the world as they are:
    the context manager is created and never entered.  For a database
    that cannot be reached, [test_connection] on the same manager reports
    the failure of the driver. *)
Theorem fast_api_connect_never_connects d s (w' : W) (e : exn) :
  connections s !! fast_api.conn_key d = None ->
  fast_api._create_connection d (world s) = (w', Raised e) ->
  fast_api_app.connect_db d s
  = (s, Returned (<["success" := VBool true]>
                    (<["message" := VStr "Connection successful!"]> ∅)))
  /\ fast_api_app.test_connection d s
     = (set_world w' s,
        Returned (<["success" := VBool false]>
                    (<["message" := VStr ("Connection failed: " +:+ exn_str e)]> ∅))).
Proof.
  intros Hn Hc. split; [done|].
  unfold fast_api_app.test_connection, fast_api.get_connection,
    fast_api.get_connection_enter.
  by rewrite Hn, Hc.
Qed.

(** X16.  [/get_schema] of [fast_api.py] never raises and always answers
    [success = True], with the dictionary of the manager under [schema]:
    when the manager reports a failure, its [success = False] and its
    message are inside an answer that says [success = True]. *)
Theorem fast_api_get_schema_always_succeeds d s :
  exists s' (r : dict),
    fast_api.get_schema d s = (s', Returned r)
    /\ fast_api_app.get_schema d s
       = (s', Returned {| fast_api_app.success := true; fast_api_app.schema := r |})
    /\ (forall (w' : W) (e : exn),
          connections s !! fast_api.conn_key d = None ->
          fast_api._create_connection d (world s) = (w', Raised e) ->
          r = <["success" := VBool false]>
                (<["message" := VStr ("Failed to get schema: " +:+ exn_str e)]> ∅)).
Proof.
  destruct (fast_api_get_schema_returns d s) as (s' & r & Hg).
  exists s', r. split; [done|]. split.
  - unfold fast_api_app.get_schema, try_except.
    by rewrite (bind_returned _ _ _ _ _ Hg).
  - intros w' e Hn Hc. revert Hg.
    unfold fast_api.get_schema, fast_api.get_connection, fast_api.get_connection_enter.
    rewrite Hn, Hc. by intros [= _ <-].
Qed.

Lemma fast_api_generate_query_prompt (question : string) (r : dict) :
  fast_api_app.generate_query model dict_str question (Query_Generator.SchemaDict r)
  = model (prompt_spec.prompt (dict_str r) question).
Proof.
  unfold fast_api_app.generate_query.
  rewrite (prompt_template_parts (VStr (dict_str r))).
  f_equal. unfold prompt_spec.prompt. simpl py_str. by rewrite !append_assoc.
Qed.

(** X17.  [/generate_query] of [fast_api.py] does not look at [success]:
    whatever dictionary the manager returns, a failure too, goes into the
    prompt as its [str] in the place of the schema, and the answer of the
    model is returned with [success = True]. *)
Theorem fast_api_generate_sql_uses_any_result (question : string) d s :
  exists s' (r : dict),
    fast_api.get_schema d s = (s', Returned r)
    /\ fast_api_app.generate_sql model dict_str question d s
       = (s', Returned (<["success" := VBool true]>
                          (<["sql_query" :=
                               VStr (model (prompt_spec.prompt (dict_str r) question))]>
                             ∅))).
Proof.
  destruct (fast_api_get_schema_returns d s) as (s' & r & Hg).
  exists s', r. split; [done|].
  unfold fast_api_app.generate_sql, try_except.
  rewrite (bind_returned _ _ _ _ _ Hg).
  by rewrite fast_api_generate_query_prompt.
Qed.

End fast_api_app_properties.

(** ** Schema texts on any catalog *)

Section postgres_any_order.
Import Data_Base_Manager postgres_spec schema_spec.
Context {P : Platform} {W Conn Cur : Type} {D : Driver W Conn Cur}.

(** X18.  Whatever the order of the catalog rows, [_get_postgres_schema]
    writes one section per run of adjacent rows with the same table name:
    no row is lost, and a table whose rows are not adjacent gets one
    section per run.  Without rows the text is empty. *)
Theorem postgres_schema_runs (cursor : Cur) (w w1 w2 : W) (rows : list catalog_row) :
  cursor_execute cursor postgres_columns_sql w = (w1, Returned tt) ->
  cursor_fetchall cursor w1 = (w2, Returned (map tuple rows)) ->
  _get_postgres_schema cursor w
  = (w2, Returned (str_join nl (map run_section (runs rows))))
  /\ concat (map snd (runs rows)) = rows.
Proof.
  intros Hex Hfetch. split.
  - unfold _get_postgres_schema.
    rewrite (bind_returned _ _ _ _ _ Hex), (bind_returned _ _ _ _ _ Hfetch).
    destruct rows as [|r rows]; [done|].
    cbn [List.map for_each]. unfold bind at 1 2.
    rewrite postgres_row_next_table by done. cbn [is_not_none].
    destruct (postgres_loop_runs rows [] (table_name r) [r] w2)
      as (parts' & t' & acc' & Hloop & Hparts).
    simpl map in Hloop. rewrite Hloop. cbn [is_not_none]. unfold ret.
    do 2 f_equal.
    change (table_schema (VStr t') (map column_line acc')) with (run_section (t', acc')).
    by rewrite Hparts.
  - destruct rows as [|r rows]; [done|]. simpl runs.
    change (r :: rows) with ([r] ++ rows). generalize [r] as acc.
    generalize (table_name r) as t. clear.
    induction rows as [|x rows IH]; intros t acc; simpl.
    + by rewrite app_nil_r.
    + destruct (String.eqb _ _); simpl; rewrite IH; by rewrite <- ?app_assoc.
Qed.

(** *** The dictionary of [_format_postgres_schema] *)

Lemma distinct_NoDup (names : list string) : NoDup (distinct names).
Proof.
  induction names as [|n names IH]; simpl; constructor.
  - intros Hin%list_elem_of_In%List.filter_In. destruct Hin as [_ Hne].
    by rewrite String.eqb_refl in Hne.
  - by apply NoDup_ListNoDup, List.NoDup_filter, NoDup_ListNoDup.
Qed.

Lemma existsb_distinct (t : string) (names : list string) :
  existsb (fun n => String.eqb n t) (distinct names)
  = existsb (fun n => String.eqb n t) names.
Proof.
  induction names as [|n names IH]; [done|]. simpl.
  destruct (String.eqb n t) eqn:Hn; [done|]. simpl. rewrite <- IH.
  apply String.eqb_neq in Hn.
  generalize (distinct names) as l. clear IH.
  induction l as [|m l IHl]; [done|]. simpl.
  destruct (String.eqb m n) eqn:Hm; simpl.
  - apply String.eqb_eq in Hm as ->.
    apply String.eqb_neq in Hn. by rewrite Hn.
  - by rewrite IHl.
Qed.

Lemma distinct_snoc (names : list string) (t : string) :
  distinct (names ++ [t])
  = if existsb (fun n => String.eqb n t) names then distinct names
    else distinct names ++ [t].
Proof.
  induction names as [|n names IH]; [done|]. simpl. rewrite IH.
  destruct (String.eqb n t) eqn:Hn; simpl.
  - apply String.eqb_eq in Hn as ->.
    destruct (existsb _ names); [done|].
    rewrite List.filter_app. simpl. rewrite String.eqb_refl. simpl.
    by rewrite app_nil_r.
  - destruct (existsb _ names); [done|].
    rewrite List.filter_app. simpl. rewrite String.eqb_sym, Hn. done.
Qed.

Lemma existsb_fmap {A B} (f : B -> bool) (g : A -> B) (l : list A) :
  existsb f (map g l) = existsb (fun x => f (g x)) l.
Proof. induction l as [|x l IH]; [done|]. simpl. by rewrite IH. Qed.

Lemma lines_of_snoc (n : string) (pre : list column_row) (r : column_row) :
  lines_of n (pre ++ [r])
  = if String.eqb (cr_table r) n then lines_of n pre ++ [simple_line r]
    else lines_of n pre.
Proof.
  unfold lines_of. rewrite List.filter_app, map_app. simpl.
  destruct (String.eqb (cr_table r) n); [done|]. simpl. by rewrite app_nil_r.
Qed.

Lemma lines_of_absent (t : string) (pre : list column_row) :
  existsb (fun n => String.eqb n t) (map cr_table pre) = false ->
  lines_of t pre = [].
Proof.
  intros Hex. unfold lines_of. rewrite filter_none; [done|].
  rewrite existsb_fmap in Hex. apply Forall_forall. intros r Hr.
  destruct (String.eqb (cr_table r) t) eqn:Heq; [|done].
  assert (existsb (fun x => String.eqb (cr_table x) t) pre = true) as Hin; [|congruence].
  apply List.existsb_exists. exists r. split; [by apply list_elem_of_In|done].
Qed.

(** Appending a line under a key that occurs once. *)
Lemma dict_append_map (t line : string) (f : string -> list string) (names : list string) :
  NoDup names ->
  fast_api.dict_append (VStr t) line (map (fun n => (VStr n, f n)) names)
  = map (fun n => (VStr n, if String.eqb n t then f n ++ [line] else f n)) names.
Proof.
  induction 1 as [|n names Hn _ IH]; [done|]. simpl.
  destruct (String.eqb n t) eqn:Heq.
  - apply String.eqb_eq in Heq as ->. f_equal.
    apply map_ext_in. intros m Hm%list_elem_of_In.
    destruct (String.eqb m t) eqn:Hmt; [|done].
    apply String.eqb_eq in Hmt as ->. done.
  - by rewrite IH.
Qed.

(** The dictionary after the rows [pre]: one entry per distinct table, in
    order of first appearance, with the lines of its rows. *)
Lemma format_postgres_step (pre : list column_row) (r : column_row) :
  let entries rows :=
    map (fun n => (VStr n, lines_of n rows)) (distinct (map cr_table rows)) in
  fast_api.dict_append (VStr (cr_table r)) (simple_line r)
    (if existsb (fun kv => py_eq kv.1 (VStr (cr_table r))) (entries pre)
     then entries pre
     else entries pre ++ [(VStr (cr_table r), [])])
  = entries (pre ++ [r]).
Proof.
  intros entries.
  assert ((if existsb (fun kv => py_eq kv.1 (VStr (cr_table r))) (entries pre)
           then entries pre
           else entries pre ++ [(VStr (cr_table r), [])])
          = map (fun n => (VStr n, lines_of n pre))
              (distinct (map cr_table pre ++ [cr_table r]))) as ->.
  { unfold entries. rewrite existsb_fmap. cbn [fst py_eq].
    rewrite existsb_distinct, distinct_snoc.
    destruct (existsb _ (map cr_table pre)) eqn:Hex; [done|].
    rewrite map_app. simpl. by rewrite (lines_of_absent _ _ Hex). }
  rewrite dict_append_map by apply distinct_NoDup.
  unfold entries. rewrite map_app. apply map_ext. intros n.
  by rewrite lines_of_snoc, String.eqb_sym.
Qed.

(** X19.  [_format_postgres_schema], reached through the PostgreSQL branch
    of [_get_schema_details], groups the catalog rows by table name
    whatever their order: one section per distinct table, in order of
    first appearance, with every column of that table in input order. *)
Theorem fast_api_postgres_groups_by_table (cursor : Cur) (w w1 w2 : W)
    (rows : list column_row) :
  cursor_execute cursor fast_api.postgres_columns_sql w = (w1, Returned tt) ->
  cursor_fetchall cursor w1 = (w2, Returned (map column_tuple rows)) ->
  fast_api._get_schema_details cursor "PostgreSQL" w
  = (w2, Returned (str_join nl (grouped_sections rows))).
Proof.
  intros Hex Hfetch.
  assert (fast_api._format_postgres_schema (map column_tuple rows) w2
          = (w2, Returned (grouped_sections rows))) as Hfmt.
  { unfold fast_api._format_postgres_schema.
    match goal with |- context [for_each ?f _ _] => set (step := f) end.
    assert (for_each step (map column_tuple rows) [] w2
            = (w2, Returned (map (fun n => (VStr n, lines_of n rows))
                               (distinct (map cr_table rows))))) as Hloop.
    { clear Hex Hfetch. induction rows as [|r pre IH] using rev_ind; [done|].
      rewrite map_app, for_each_app. rewrite (bind_returned _ _ _ _ _ IH).
      simpl. unfold bind, ret. do 2 f_equal. apply format_postgres_step. }
    rewrite (bind_returned _ _ _ _ _ Hloop). unfold ret. do 2 f_equal.
    unfold grouped_sections. by rewrite map_map. }
  unfold fast_api._get_schema_details, try_except.
  change (String.eqb "PostgreSQL" "SQLite") with false.
  change (String.eqb "PostgreSQL" "PostgreSQL") with true. cbv iota.
  erewrite bind_returned; [done|].
  rewrite (bind_returned _ _ _ _ _ Hex), (bind_returned _ _ _ _ _ Hfetch).
  by rewrite (bind_returned _ _ _ _ _ Hfmt).
Qed.

End postgres_any_order.

(** ** The SQLite inspectors on any catalog *)

Section sqlite_any_catalog.
Import Data_Base_Manager sqlite3_model schema_spec.
Context {P : Platform}.
Variables (can_open : string -> bool) (read_bare : string -> option string)
  (cat : catalog).

Let engine : Driver world string string := driver can_open read_bare cat.

(** The world the inspector of [Data_Base_Manager.py] leaves. *)
Let inspected : world :=
  match listed cat with
  | [] => after_select_name
  | _ :: _ => after_table_info
  end.

Lemma get_sqlite_schema_listed (cursor : string) (w : world) :
  Forall (fun t => has_quote (tbl_name t) = false) (listed cat) ->
  _get_sqlite_schema (D:=engine) cursor w
  = (inspected, Returned (sections_of cat (listed cat))).
Proof.
  intros Hall. unfold _get_sqlite_schema.
  rewrite (bind_returned _ _ _ _ _
             (execute_answer can_open read_bare cat cursor sqlite_tables_sql w _ _ eq_refl)).
  rewrite (bind_returned _ _ _ _ _ (fetchall_pending can_open read_bare cat cursor _)).
  cbn [pending description].
  rewrite (bind_returned _ _ _ _ _
             (for_each_sqlite_table_quoted can_open read_bare cat cursor
                (listed cat) [] _ Hall)).
  unfold inspected. by destruct (listed cat).
Qed.

Lemma get_schema_details_all (cursor : string) (w : world) :
  Forall (fun t => has_quote (tbl_name t) = false
                   /\ read_bare (tbl_name t) = Some (tbl_name t)) cat ->
  (fast_api._get_schema_details (D:=engine) cursor "SQLite" w).2
  = Returned (sections_of cat cat).
Proof.
  intros Hall. unfold fast_api._get_schema_details, try_except.
  change (String.eqb "SQLite" "SQLite") with true. cbv iota.
  assert ((cursor_execute (Driver:=engine) cursor
             "SELECT name FROM sqlite_master WHERE type='table';" ;;;
           tables <- cursor_fetchall (Driver:=engine) cursor ;;
           for_each (fast_api.sqlite_table (D:=engine) cursor) tables []) w
          = (match cat with [] => after_select_name | _ :: _ => after_table_info end,
             Returned (map (fun t => table_section cat (tbl_name t)) cat))) as Hb.
  { rewrite (bind_returned _ _ _ _ _
               (execute_answer can_open read_bare cat cursor
                  "SELECT name FROM sqlite_master WHERE type='table';" w _ _ eq_refl)).
    rewrite (bind_returned _ _ _ _ _ (fetchall_pending can_open read_bare cat cursor _)).
    cbn [pending description].
    rewrite (for_each_sqlite_table_bare can_open read_bare cat cursor cat [] _ Hall).
    by destruct cat. }
  by rewrite (bind_returned _ _ _ _ _ Hb).
Qed.

(** X20.  On any catalog whose table names hold no single quote and,
    written unquoted as the argument of the pragma, are read by the
    tokenizer as that same name, the inspector of [Data_Base_Manager.py]
    writes the sections of the tables whose name does not match
    [sqlite_%] and the inspector of [fast_api.py] writes the sections of
    all tables, both in catalog order: the texts differ exactly by the
    sections of the internal tables.  The reading [read_bare] is any
    function. *)
Theorem sqlite_inspectors_on_any_catalog (cursor : string) (w : world) :
  Forall (fun t => has_quote (tbl_name t) = false
                   /\ read_bare (tbl_name t) = Some (tbl_name t)) cat ->
  (_get_sqlite_schema (D:=engine) cursor w).2 = Returned (sections_of cat (listed cat))
  /\ (fast_api._get_schema_details (D:=engine) cursor "SQLite" w).2
     = Returned (sections_of cat cat).
Proof.
  intros Hall. split; [|by apply get_schema_details_all].
  rewrite get_sqlite_schema_listed; [done|].
  unfold listed. apply Forall_forall. intros t Ht%list_elem_of_In%List.filter_In.
  destruct Ht as [Ht _]. rewrite Forall_forall in Hall.
  by apply Hall, list_elem_of_In.
Qed.

(** The manager after the first [get_schema] on the file of [d]. *)
Let connected d : manager world string :=
  {| connections := {[ conn_key d := Some (db_name d) ]};
     opened := [conn_key d];
     Data_Base_Manager.world := inspected |}.

Lemma get_schema_body_sqlite d (conn : string) (w0 : world) :
  db_type d = "SQLite" ->
  Forall (fun t => has_quote (tbl_name t) = false) (listed cat) ->
  get_schema_body (D:=engine) d (Some conn) w0
  = (inspected,
     Returned (<["success" := VBool true]>
                 (<["schema" := VStr (sections_of cat (listed cat))]> ∅))).
Proof.
  intros Ht Hall. unfold get_schema_body. rewrite Ht. simpl cursor_of.
  change (String.eqb "SQLite" "SQLite") with true. cbv iota.
  unfold bind at 1. cbn [conn_cursor engine driver ret].
  by rewrite (bind_returned _ _ _ _ _ (get_sqlite_schema_listed conn w0 Hall)).
Qed.

Lemma get_schema_sqlite_fresh d (w : world) :
  db_type d = "SQLite" ->
  can_open (db_name d) = true ->
  Forall (fun t => has_quote (tbl_name t) = false) (listed cat) ->
  get_schema (D:=engine) d (init w)
  = (connected d,
     Returned (<["success" := VBool true]>
                 (<["schema" := VStr (sections_of cat (listed cat))]> ∅))).
Proof.
  intros Ht Hopen Hall.
  assert (_create_connection (D:=engine) d w = (w, Returned (Some (db_name d)))) as Hc.
  { unfold _create_connection, try_except. rewrite Ht.
    change (String.eqb "SQLite" "SQLite") with true. cbv iota.
    unfold bind. cbn [sqlite3_connect engine driver]. by rewrite Hopen. }
  unfold get_schema, get_connection.
  rewrite (get_connection_enter_fresh d (init w) w (Some (db_name d)) eq_refl Hc).
  rewrite (get_schema_body_sqlite d _ _ Ht Hall).
  unfold get_connection_exit, get_connection_finally, dict_getitem. rewrite Ht.
  change (String.eqb "SQLite" "SQLite") with true. cbv iota.
  cbn [connections set_world store]. rewrite lookup_insert_eq.
  cbn [conn_commit engine driver ret]. done.
Qed.

Lemma get_schema_sqlite_cached d :
  db_type d = "SQLite" ->
  Forall (fun t => has_quote (tbl_name t) = false) (listed cat) ->
  get_schema (D:=engine) d (connected d)
  = (connected d,
     Returned (<["success" := VBool true]>
                 (<["schema" := VStr (sections_of cat (listed cat))]> ∅))).
Proof.
  intros Ht Hall.
  assert (connections (connected d) !! conn_key d = Some (Some (db_name d))) as Hk
    by apply lookup_singleton_eq.
  unfold get_schema, get_connection.
  rewrite (get_connection_enter_cached d (connected d) _ Hk).
  rewrite (get_schema_body_sqlite d _ _ Ht Hall).
  unfold get_connection_exit, get_connection_finally, dict_getitem. rewrite Ht.
  change (String.eqb "SQLite" "SQLite") with true. cbv iota.
  cbn [connections set_world]. rewrite Hk.
  cbn [conn_commit engine driver ret]. done.
Qed.

(** X21.  On a fresh manager, [get_schema] for a SQLite file that can be
    opened and whose listed tables (those whose name does not match
    [sqlite_%]) have no single quote in their name connects once, caches
    the connection under the key, reads the catalog and returns
    [success = True] with the sections of the listed tables.  A second
    [get_schema] on the manager it leaves returns the same dictionary and
    changes nothing: the connection is reused. *)
Theorem get_schema_sqlite_end_to_end d (w : world) :
  db_type d = "SQLite" ->
  can_open (db_name d) = true ->
  Forall (fun t => has_quote (tbl_name t) = false) (listed cat) ->
  let s1 := {| connections := {[ conn_key d := Some (db_name d) ]};
               opened := [conn_key d];
               Data_Base_Manager.world := inspected |} in
  let r := <["success" := VBool true]>
             (<["schema" := VStr (sections_of cat (listed cat))]> ∅) in
  get_schema (D:=engine) d (init w) = (s1, Returned r)
  /\ get_schema (D:=engine) d s1 = (s1, Returned r).
Proof.
  intros Ht Hopen Hall s1 r. split.
  - by apply get_schema_sqlite_fresh.
  - by apply get_schema_sqlite_cached.
Qed.

(** X22.  On a fresh manager and a SQLite file that can be opened and
    whose listed tables (those whose name does not match [sqlite_%]) have
    no single quote in their name, [/execute_query] with the statement
    that lists the tables inspects the schema, then runs the statement on
    the connection it cached:
    [row_count] is the number of tables of the catalog, internal ones
    included, and [results] holds one row per table under the column
    [name], or is the empty list for a database without tables. *)
Theorem execute_sql_lists_tables d (w : world) :
  db_type d = "SQLite" ->
  can_open (db_name d) = true ->
  Forall (fun t => has_quote (tbl_name t) = false) (listed cat) ->
  let sql := "SELECT name FROM sqlite_master WHERE type='table';" in
  (api_handlers.execute_sql (D:=engine) sql d (init w)).2
  = Returned
      {| api_handlers.success := true;
         api_handlers.query := sql;
         api_handlers.results :=
           match cat with
           | [] => None
           | _ :: _ => Some {| df_rows := map (fun t => [VStr (tbl_name t)]) cat;
                               df_columns := [VStr "name"] |}
           end;
         api_handlers.row_count := length cat |}.
Proof.
  intros Ht Hopen Hall sql.
  assert (connections (connected d) !! conn_key d = Some (Some (db_name d))) as Hk
    by apply lookup_singleton_eq.
  assert (execute_query (D:=engine) sql d (connected d)
          = (set_world after_select_name (connected d),
             Returned match map (fun t => [VStr (tbl_name t)]) cat with
                      | [] => None
                      | _ :: _ =>
                          Some {| df_rows := map (fun t => [VStr (tbl_name t)]) cat;
                                  df_columns := [VStr "name"] |}
                      end)) as Hq.
  { unfold execute_query, get_connection.
    rewrite (get_connection_enter_cached d (connected d) _ Hk).
    rewrite (execute_query_body_fetches (D:=engine) sql (db_name d) (db_name d)
               _ _ _ after_select_name [describe "name"] [VStr "name"]
               (map (fun t => [VStr (tbl_name t)]) cat)
               eq_refl
               (execute_answer can_open read_bare cat _ sql _ _ _ eq_refl)
               eq_refl ltac:(by repeat constructor) eq_refl).
    unfold get_connection_exit, get_connection_finally, dict_getitem. rewrite Ht.
    change (String.eqb "SQLite" "SQLite") with true. cbv iota.
    cbn [connections set_world]. rewrite Hk.
    cbn [conn_commit engine driver ret]. done. }
  unfold api_handlers.execute_sql, api_handlers.try_except_http.
  erewrite bind_returned;
    [|by apply schema_or_400_success, get_schema_sqlite_fresh].
  rewrite (bind_returned _ _ _ _ _ Hq).
  unfold ret, api_handlers.query_response_of. simpl.
  destruct cat; simpl; by rewrite ?length_map.
Qed.

End sqlite_any_catalog.

(** ** The MySQL inspectors *)

Section mysql_schema.
Import Data_Base_Manager mysql_model.
Context {P : Platform}.
Variables (read_bare : string -> option string) (cat : catalog).

Let server : Driver (list row) string string := driver read_bare cat.

Lemma describe_table (t : table) :
  t ∈ cat ->
  describe cat (tbl_name t) = Returned (map describe_row (columns_of cat (tbl_name t))).
Proof.
  intros Ht. unfold describe, columns_of.
  destruct (List.find _ cat) as [t'|] eqn:Hfind; [done|].
  apply list_elem_of_In in Ht.
  pose proof (List.find_none _ _ Hfind t Ht) as Hno. simpl in Hno.
  by rewrite String.eqb_refl in Hno.
Qed.

Lemma answer_describe (name : string) :
  has_backtick name = false ->
  answer read_bare cat ("DESCRIBE `" +:+ name +:+ "`;") = describe cat name.
Proof.
  intros Hq. unfold answer.
  change (String.eqb ("DESCRIBE `" +:+ name +:+ "`;") _) with false. cbv iota.
  change (sqlite3_model.strip_prefix "DESCRIBE `" ("DESCRIBE `" +:+ name +:+ "`;"))
    with (Some (name +:+ "`;")).
  cbv iota beta. by rewrite strip_suffix_app, Hq.
Qed.

Lemma answer_show_columns (name : string) :
  read_bare name = Some name ->
  answer read_bare cat ("SHOW COLUMNS FROM " +:+ name +:+ ";") = describe cat name.
Proof.
  intros Hb. unfold answer.
  change (String.eqb ("SHOW COLUMNS FROM " +:+ name +:+ ";") _) with false. cbv iota.
  change (sqlite3_model.strip_prefix "DESCRIBE `" ("SHOW COLUMNS FROM " +:+ name +:+ ";"))
    with (@None string).
  cbv iota.
  change (sqlite3_model.strip_prefix "SHOW COLUMNS FROM "
            ("SHOW COLUMNS FROM " +:+ name +:+ ";"))
    with (Some (name +:+ ";")).
  cbv iota beta. by rewrite strip_suffix_app, Hb.
Qed.

Lemma mysql_execute (cursor sql : string) (w rows : list row) :
  answer read_bare cat sql = Returned rows ->
  cursor_execute (Driver:=server) cursor sql w = (rows, Returned tt).
Proof. intros Ha. simpl. by rewrite Ha. Qed.

(** X23.  On any MySQL database whose table names hold no backtick,
    [_get_mysql_schema] writes one section per table, in the order of
    [SHOW TABLES], with one line per column: name, type, [NULL] or
    [NOT NULL] as the null flag is [YES] or not, then the default, the
    key and the extra, each only when it is not empty. *)
Theorem mysql_schema_sections (cursor : string) (w : list row) :
  Forall (fun t => has_backtick (tbl_name t) = false) cat ->
  _get_mysql_schema (D:=server) cursor w
  = ([], Returned (schema_text column_line cat)).
Proof.
  intros Hall. unfold _get_mysql_schema.
  rewrite (bind_returned _ _ _ _ _ (mysql_execute cursor "SHOW TABLES;" w _ eq_refl)).
  unfold bind at 1. cbn [cursor_fetchall server driver].
  match goal with |- context [for_each ?f (map _ cat) _] => set (outer := f) end.
  assert (forall (t : table) (parts : list string) (w0 : list row),
            t ∈ cat -> has_backtick (tbl_name t) = false ->
            outer parts [VStr (tbl_name t)] w0
            = ([], Returned (parts ++
                 [nl +:+ "  Table: " +:+ tbl_name t +:+ nl
                    +:+ str_join nl (map column_line (columns_of cat (tbl_name t)))])))
    as Hstep.
  { intros t parts w0 Ht Hq. unfold outer.
    unfold bind at 1. cbn [lift py_index lookup list_lookup py_str].
    rewrite (bind_returned _ _ _ _ _
               (mysql_execute cursor _ w0 _
                  (eq_trans (answer_describe _ Hq) (describe_table t Ht)))).
    unfold bind at 1. cbn [cursor_fetchall server driver].
    match goal with |- context [for_each ?f (map describe_row _) _] => set (inner := f) end.
    assert (forall (cols : list column) (acc : list string),
              for_each inner (map describe_row cols) acc ([] : list row)
              = ([], Returned (acc ++ map column_line cols))) as Hinner.
    { induction cols as [|c cols IH]; intros acc; simpl.
      - by rewrite app_nil_r.
      - unfold bind, ret. rewrite IH, <- app_assoc. do 3 f_equal.
        unfold column_line.
        by destruct (default c) as [[|a dflt]|], (key c), (extra c). }
    by rewrite (bind_returned _ _ _ _ _ (Hinner _ [])). }
  assert (forall (tables : list table) (parts : list string),
            Forall (fun t => t ∈ cat /\ has_backtick (tbl_name t) = false) tables ->
            for_each outer (map (fun t => [VStr (tbl_name t)]) tables) parts ([] : list row)
            = ([], Returned (parts ++
                 map (fun t => nl +:+ "  Table: " +:+ tbl_name t +:+ nl
                                 +:+ str_join nl
                                       (map column_line (columns_of cat (tbl_name t))))
                   tables))) as Hloop.
  { induction tables as [|t tables IH]; intros parts Hts; simpl.
    - by rewrite app_nil_r.
    - apply Forall_cons_1 in Hts as [[Ht Hq] Hts].
      rewrite (bind_returned _ _ _ _ _ (Hstep t parts [] Ht Hq)).
      by rewrite IH, <- app_assoc. }
  assert (Forall (fun t => t ∈ cat /\ has_backtick (tbl_name t) = false) cat) as Hcat.
  { apply Forall_forall. intros t Ht. split; [done|].
    rewrite Forall_forall in Hall. by apply Hall. }
  by rewrite (bind_returned _ _ _ _ _ (Hloop cat [] Hcat)).
Qed.

(** X24.  On any MySQL database whose table names, written without
    backticks after [SHOW COLUMNS FROM], are read by the parser as that
    same name, the MySQL branch of [_get_schema_details] writes one
    section per table, in the order of [SHOW TABLES], with one line per
    column that holds its name and its type only.  The reading
    [read_bare] is any function. *)
Theorem fast_api_mysql_schema_sections (cursor : string) (w : list row) :
  Forall (fun t => read_bare (tbl_name t) = Some (tbl_name t)) cat ->
  fast_api._get_schema_details (D:=server) cursor "MySQL" w
  = ([], Returned (schema_text simple_line cat)).
Proof.
  intros Hall. unfold fast_api._get_schema_details, try_except.
  change (String.eqb "MySQL" "SQLite") with false.
  change (String.eqb "MySQL" "PostgreSQL") with false.
  change (String.eqb "MySQL" "MySQL") with true. cbv iota.
  match goal with |- context [for_each ?f _ _] => set (outer := f) end.
  assert (forall (name : string) (cols : list column) (w0 : list row),
            fast_api._format_table_schema (W:=list row)
              (VStr name) (map describe_row cols) "mysql" w0
            = (w0, Returned (nl +:+ "  Table: " +:+ name +:+ nl
                               +:+ str_join nl (map simple_line cols)))) as Hfmt.
  { intros name cols w0. unfold fast_api._format_table_schema.
    change (String.eqb "mysql" "sqlite") with false.
    change (String.eqb "mysql" "mysql") with true. cbv iota.
    match goal with |- context [map_m ?f _] => set (line := f) end.
    assert (map_m line (map describe_row cols) w0
            = (w0, Returned (map simple_line cols))) as Hlines.
    { induction cols as [|c cols IH]; [done|].
      simpl. unfold bind at 1. cbn. unfold bind at 1. by rewrite IH. }
    by rewrite (bind_returned _ _ _ _ _ Hlines). }
  assert (forall (tables : list table) (schema : list string) (w0 : list row),
            Forall (fun t => t ∈ cat /\ read_bare (tbl_name t) = Some (tbl_name t)) tables ->
            for_each outer (map (fun t => [VStr (tbl_name t)]) tables) schema w0
            = (match tables with [] => w0 | _ :: _ => [] end,
               Returned (schema ++
                 map (fun t => nl +:+ "  Table: " +:+ tbl_name t +:+ nl
                                 +:+ str_join nl
                                       (map simple_line (columns_of cat (tbl_name t))))
                   tables))) as Hloop.
  { induction tables as [|t tables IH]; intros schema w0 Hts; simpl.
    - by rewrite app_nil_r.
    - apply Forall_cons_1 in Hts as [[Ht Hb] Hts].
      assert (outer schema [VStr (tbl_name t)] w0
              = ([], Returned (schema ++
                   [nl +:+ "  Table: " +:+ tbl_name t +:+ nl
                      +:+ str_join nl (map simple_line (columns_of cat (tbl_name t)))])))
        as Hstep.
      { unfold outer.
        unfold bind at 1. cbn [lift py_index lookup list_lookup py_str].
        rewrite (bind_returned _ _ _ _ _
                   (mysql_execute cursor _ w0 _
                      (eq_trans (answer_show_columns _ Hb) (describe_table t Ht)))).
        unfold bind at 1. cbn [cursor_fetchall server driver].
        by rewrite (bind_returned _ _ _ _ _ (Hfmt _ _ _)). }
      rewrite (bind_returned _ _ _ _ _ Hstep).
      rewrite IH by done. rewrite <- app_assoc. by destruct tables. }
  assert (Forall (fun t => t ∈ cat /\ read_bare (tbl_name t) = Some (tbl_name t)) cat) as Hcat.
  { apply Forall_forall. intros t Ht. split; [done|].
    rewrite Forall_forall in Hall. by apply Hall. }
  erewrite bind_returned.
  2:{ rewrite (bind_returned _ _ _ _ _ (mysql_execute cursor "SHOW TABLES;" w _ eq_refl)).
      unfold bind at 1. cbn [cursor_fetchall server driver].
      apply (Hloop cat [] [] Hcat). }
  by destruct cat.
Qed.

End mysql_schema.

(** ** More sample databases *)

Section more_samples.
Import Data_Base_Manager sqlite3_model examples more_examples.

#[local] Existing Instance platform.

(** A request for [shop] on host [eu_db1] is handed the connection of
    [shop_eu] on host [db1]. *)
Lemma conn_key_collision_on_underscore_witness :
  get_connection_enter (D:=shop_server)
    {| db_type := "MySQL"; db_host := Some "eu_db1"; db_port := None;
       db_name := "shop"; db_user := None; db_password := None |}
    (store "MySQL_shop_eu_db1" (Some "shop_eu") [] (init []))
  = (store "MySQL_shop_eu_db1" (Some "shop_eu") [] (init []), Returned (Some "shop_eu")).
Proof.
  exact (proj2 (conn_key_collision_on_underscore (D:=shop_server)
                  (store "MySQL_shop_eu_db1" (Some "shop_eu") [] (init []))
                  "MySQL" "shop" "eu" "db1" None None None None None None
                  (Some "shop_eu") eq_refl)).
Defined.

(** A request for [app.db] on the host named [None] is handed the
    connection of the request without a host. *)
Lemma conn_key_collision_on_none_witness :
  get_connection_enter (D:=app)
    {| db_type := "SQLite"; db_host := Some "None"; db_port := None;
       db_name := "app.db"; db_user := None; db_password := None |} connected
  = (connected, Returned (Some "app.db")).
Proof.
  exact (conn_key_collision_on_none (D:=app) connected app_db None None None
           (Some "app.db") eq_refl eq_refl).
Defined.

(** A statement the server rejects is reported as a failed connection. *)
Lemma get_connection_wraps_body_error_witness :
  (get_connection (D:=shop_server) shop_db
     (fun conn => cursor <- cursor_of (D:=shop_server) conn ;;
                  cursor_execute (Driver:=shop_server) cursor "SELEC 1")
     shop_connected).2
  = Raised (ConnectionError "Database connection failed: statement outside the model").
Proof.
  rewrite (get_connection_wraps_body_error (D:=shop_server) shop_db _ shop_connected
             shop_connected (Some "shop") [] (DriverError "statement outside the model"));
    [reflexivity|discriminate|reflexivity|reflexivity].
Defined.

(** On [app.db], a body that returns is followed by the commit. *)
Lemma sqlite_commits_on_exit_witness :
  get_connection (D:=app) app_db (fun _ => ret 7%nat) connected
  = (connected, Returned 7%nat).
Proof.
  exact (sqlite_commits_on_exit (D:=app) app_db (fun _ => ret 7%nat) connected "app.db"
           w0 w0 (Returned 7%nat) (Returned tt) eq_refl eq_refl eq_refl eq_refl).
Defined.

(** On the server that refuses the first connection, the second
    operation connects. *)
Lemma failed_creation_is_retried_witness :
  get_connection_enter (D:=flaky) app_db
    (get_connection (D:=flaky) app_db (fun _ => ret tt) (init 0%nat)).1
  = (store "SQLite_app.db_None" (Some tt) 2%nat (init 0%nat), Returned (Some tt)).
Proof.
  exact (proj2 (failed_creation_is_retried (D:=flaky) app_db (fun _ => ret tt)
                  (init 0%nat) 1%nat 2%nat
                  (ConnectionError "Failed to connect to database: unable to open database file")
                  (Some tt) eq_refl eq_refl eq_refl)).
Defined.


(** [/connect] for the dialect [Oracle] answers with status 503 and the
    text of the [AttributeError]; on a PostgreSQL server that accepts the
    connection and the statement it answers with the success message. *)
Lemma connect_db_reports_503_witness :
  api_handlers.connect_db (D:=app) oracle_db (init w0)
  = (store "Oracle_orcl_db.example.org" None w0 (init w0),
     Raised (HTTPException 503
               (VStr "Database connection failed: Database connection failed: 'NoneType' object has no attribute 'cursor'")))
  /\ api_handlers.connect_db (D:=postgres []) orders_db (init tt)
     = (store "PostgreSQL_orders_db2" (Some tt) tt (init tt),
        Returned (<["success" := VBool true]>
                    (<["message" :=
                         VStr "Successfully connected to PostgreSQL database"]> ∅))).
Proof.
  split.
  - rewrite (connect_db_reports_503 (D:=app) oracle_db (init w0)); [reflexivity|discriminate].
  - rewrite (connect_db_reports_503 (D:=postgres []) orders_db (init tt));
      [reflexivity|discriminate].
Defined.

(** [/connect] for a SQLite file that cannot be opened answers with status
    500 and the key. *)
Lemma connect_db_sqlite_failure_is_500_witness :
  api_handlers.connect_db (D:=app) missing_db (init w0)
  = (init w0,
     Raised (HTTPException 500 (VStr "An error occurred: 'SQLite_/nowhere/app.db_None'"))).
Proof.
  exact (connect_db_sqlite_failure_is_500 (D:=app) missing_db (init w0) w0
           (ConnectionError "Failed to connect to database: unable to open database file")
           eq_refl eq_refl eq_refl).
Defined.

(** [/generate_query] and [/execute_query] for the dialect [Oracle] answer
    with status 400. *)
Lemma schema_failure_is_400_witness :
  (api_handlers.generate_sql (D:=app) fixed_model isspace "who?" oracle_db (init w0)).2
  = Raised (HTTPException 400
              (VStr "Failed to get schema: Database connection failed: 'NoneType' object has no attribute 'cursor'"))
  /\ (api_handlers.execute_sql (D:=app) "SELECT 1" oracle_db (init w0)).2
     = Raised (HTTPException 400
                 (VStr "Failed to get schema: Database connection failed: 'NoneType' object has no attribute 'cursor'")).
Proof.
  destruct (schema_failure_is_400 (D:=app) fixed_model isspace "who?" "SELECT 1"
              oracle_db (init w0)
              (store (conn_key oracle_db) None w0 (init w0))
              (<["success" := VBool false]>
                 (<["message" :=
                      VStr "Failed to get schema: Database connection failed: 'NoneType' object has no attribute 'cursor'"]> ∅))
              (VBool false)
              (VStr "Failed to get schema: Database connection failed: 'NoneType' object has no attribute 'cursor'")
              eq_refl eq_refl eq_refl eq_refl) as [-> ->].
  by split.
Defined.

(** [/generate_query] on [app.db] returns the answer of the model. *)
Lemma generate_sql_answer_witness :
  (api_handlers.generate_sql (D:=app) fixed_model isspace "who?" app_db (init w0)).2
  = Returned (<["success" := VBool true]>
                (<["sql_query" := VStr "SELECT name FROM users"]>
                   (<["db_type" := VStr "SQLite"]> ∅))).
Proof.
  rewrite (generate_sql_answer (D:=app) fixed_model isspace "who?" app_db (init w0)
             (store (conn_key app_db) (Some "app.db") after_table_info (init w0))
             (lines [ ""; "  Table: users"; "    - id (INTEGER)"; "    - name (TEXT)" ]));
    reflexivity.
Defined.

(** [/execute_raw_query] on [app.db] counts the one table. *)
Lemma execute_raw_sql_counts_rows_witness :
  (api_handlers.execute_raw_sql (D:=app) app_db
     "SELECT name FROM sqlite_master WHERE type='table';" (init w0)).2
  = Returned {| api_handlers.success := true;
                api_handlers.query := "SELECT name FROM sqlite_master WHERE type='table';";
                api_handlers.results :=
                  Some {| df_rows := [[VStr "users"]]; df_columns := [VStr "name"] |};
                api_handlers.row_count := 1 |}.
Proof.
  rewrite (execute_raw_sql_counts_rows (D:=app)
             "SELECT name FROM sqlite_master WHERE type='table';" app_db (init w0)
             (store (conn_key app_db) (Some "app.db") w0 (init w0)) "app.db" "app.db"
             w0 {| pending := [[VStr "users"]]; description := Some [describe "name"] |}
             after_select_name
             (store (conn_key app_db) (Some "app.db") after_select_name (init w0))
             [describe "name"] [VStr "name"] [[VStr "users"]]);
    [reflexivity..| |reflexivity|reflexivity].
  repeat constructor.
Defined.

(** [/execute_raw_query] on [shop] with a statement the server rejects. *)
Lemma execute_raw_sql_rejected_witness :
  (api_handlers.execute_raw_sql (D:=shop_server) shop_db "SELEC 1" shop_connected).2
  = Raised (HTTPException 500
              (VStr "Raw query execution failed: Query execution failed: Database connection failed: statement outside the model")).
Proof.
  rewrite (execute_raw_sql_rejected (D:=shop_server) "SELEC 1" shop_db shop_connected
             shop_connected "shop" "shop" [] []
             (DriverError "statement outside the model"));
    [reflexivity|discriminate|reflexivity..].
Defined.

(** [/connect] of [fast_api.py] on a file that cannot be opened. *)
Lemma fast_api_connect_never_connects_witness :
  fast_api_app.connect_db (W:=world) (Conn:=string) missing_db (init w0)
  = (init w0, Returned (<["success" := VBool true]>
                          (<["message" := VStr "Connection successful!"]> ∅)))
  /\ fast_api_app.test_connection (D:=app) missing_db (init w0)
     = (init w0,
        Returned (<["success" := VBool false]>
                    (<["message" :=
                         VStr "Connection failed: Failed to connect to database: unable to open database file"]> ∅))).
Proof.
  exact (fast_api_connect_never_connects (D:=app) missing_db (init w0) w0
           (ConnectionError "Failed to connect to database: unable to open database file")
           eq_refl eq_refl).
Defined.

(** Unsorted catalog rows: [orders] gets two sections. *)
Lemma postgres_schema_runs_witness :
  (_get_postgres_schema (D:=postgres (map postgres_spec.tuple unsorted_rows)) tt tt).2
  = Returned (lines [ ""; "  Table: orders"; "    - id (integer NOT NULL)";
                      ""; "  Table: users"; "    - name (text NOT NULL)";
                      ""; "  Table: orders"; "    - note (text NULL)" ]).
Proof.
  rewrite (proj1 (postgres_schema_runs
                    (D:=postgres (map postgres_spec.tuple unsorted_rows))
                    tt tt tt tt unsorted_rows eq_refl eq_refl)).
  reflexivity.
Defined.

(** The same rows through [fast_api.py]: one section for [orders]. *)
Lemma fast_api_postgres_groups_by_table_witness :
  (fast_api._get_schema_details
     (D:=postgres (map schema_spec.column_tuple unsorted_columns)) tt "PostgreSQL" tt).2
  = Returned (lines [ ""; "  Table: orders"; "    - id (integer)"; "    - note (text)";
                      ""; "  Table: users"; "    - name (text)" ]).
Proof.
  rewrite (fast_api_postgres_groups_by_table
             (D:=postgres (map schema_spec.column_tuple unsorted_columns))
             tt tt tt tt unsorted_columns eq_refl eq_refl).
  reflexivity.
Defined.

(** The database with an [AUTOINCREMENT] column, through both
    inspectors. *)
Lemma sqlite_inspectors_on_any_catalog_witness :
  (_get_sqlite_schema (D:=app_autoincrement) "app.db" w0).2
  = Returned (lines [ ""; "  Table: users"; "    - id (INTEGER)"; "    - name (TEXT)" ])
  /\ (fast_api._get_schema_details (D:=app_autoincrement) "app.db" "SQLite" w0).2
     = Returned (lines [ ""; "  Table: users"; "    - id (INTEGER)"; "    - name (TEXT)";
                         ""; "  Table: sqlite_sequence"; "    - name ()"; "    - seq ()" ]).
Proof.
  apply (sqlite_inspectors_on_any_catalog can_open read_unquoted
           [users; sqlite_sequence] "app.db" w0).
  repeat constructor.
Defined.

(** [get_schema] on [app.db], twice. *)
Lemma get_schema_sqlite_end_to_end_witness :
  let s1 := store (conn_key app_db) (Some "app.db") after_table_info (init w0) in
  let r := <["success" := VBool true]>
             (<["schema" :=
                  VStr (lines [ ""; "  Table: users"; "    - id (INTEGER)";
                                "    - name (TEXT)" ])]> ∅) in
  get_schema (D:=app) app_db (init w0) = (s1, Returned r)
  /\ get_schema (D:=app) app_db s1 = (s1, Returned r).
Proof.
  apply (get_schema_sqlite_end_to_end can_open read_unquoted [users] app_db w0
           eq_refl eq_refl).
  repeat constructor.
Defined.

(** [/execute_query] on the database with an [AUTOINCREMENT] column lists
    both tables. *)
Lemma execute_sql_lists_tables_witness :
  (api_handlers.execute_sql (D:=app_autoincrement)
     "SELECT name FROM sqlite_master WHERE type='table';" app_db (init w0)).2
  = Returned {| api_handlers.success := true;
                api_handlers.query := "SELECT name FROM sqlite_master WHERE type='table';";
                api_handlers.results :=
                  Some {| df_rows := [[VStr "users"]; [VStr "sqlite_sequence"]];
                          df_columns := [VStr "name"] |};
                api_handlers.row_count := 2 |}.
Proof.
  apply (execute_sql_lists_tables can_open read_unquoted [users; sqlite_sequence]
           app_db w0 eq_refl eq_refl).
  repeat constructor.
Defined.

(** The schema of [shop] through [Data_Base_Manager.py]. *)
Lemma mysql_schema_sections_witness :
  (_get_mysql_schema (D:=shop_server) "shop" []).2
  = Returned (lines [ ""; "  Table: orders";
                      "    - id (int NOT NULL PRI auto_increment)";
                      "    - state (varchar(8) NULL DEFAULT new)";
                      ""; "  Table: users"; "    - name (text NOT NULL)" ]).
Proof.
  unfold shop_server.
  rewrite (mysql_schema_sections mysql_model.read_unquoted shop "shop" []).
  - reflexivity.
  - repeat constructor.
Defined.

(** The schema of [shop] through [fast_api.py]. *)
Lemma fast_api_mysql_schema_sections_witness :
  (fast_api._get_schema_details (D:=shop_server) "shop" "MySQL" []).2
  = Returned (lines [ ""; "  Table: orders"; "    - id (int)"; "    - state (varchar(8))";
                      ""; "  Table: users"; "    - name (text)" ]).
Proof.
  unfold shop_server.
  rewrite (fast_api_mysql_schema_sections mysql_model.read_unquoted shop "shop" []).
  - reflexivity.
  - repeat constructor.
Defined.

End more_samples.
